(** * The notcurses installer (tui_framework_installer/cli.py)

    A shallow embedding of the installer's command-line program and the
    properties of its platform detector, dependency installer, source
    builder and orchestrator.

    The program is a straight line of calls to external commands.  Every
    interaction with the outside world (a probe of the search path, a shell
    command with the result it produced, a line printed on the console, the
    temporary build directory) is recorded, in program order, in a trace.
    What the outside world answers is given by an environment; the answer to
    a shell command may depend on everything that happened before it, so the
    same command can answer differently the second time it is run.

    Text (Python's [str]) is represented by its UTF-8 encoding. *)

From Stdlib Require Import String Ascii ZArith List DecimalString.
From stdpp Require Import base strings gmap list.
Import ListNotations.
Open Scope string_scope.
Open Scope list_scope.

(** ** Text *)

Module Text.

(** The line feed character of Python's ["\n"]. *)
Definition nl : string := String (ascii_of_nat 10) EmptyString.

(** [str.lower], on the letters A to Z; every other byte is kept.  The
    program compares the result with the names "linux", "darwin" and
    "windows" only, and a text that [str.lower] maps to one of these
    consists of ASCII letters: the only other characters whose lower case
    holds an ASCII letter are U+0130, which leaves a combining dot behind,
    and U+212A, the Kelvin sign, and these names have no k. *)
Definition lower_ascii (c : ascii) : ascii :=
  let n := nat_of_ascii c in
  if (65 <=? n)%nat && (n <=? 90)%nat then ascii_of_nat (n + 32) else c.

Fixpoint lower (s : string) : string :=
  match s with
  | EmptyString => EmptyString
  | String c r => String (lower_ascii c) (lower r)
  end.

(** [sub in s] of Python: [sub] occurs in [s] as a contiguous run. *)
Fixpoint contains (sub s : string) : bool :=
  String.prefix sub s ||
  match s with
  | EmptyString => false
  | String _ r => contains sub r
  end.

(** The ASCII characters [str.strip] removes: U+0009 to U+000D, U+001C to
    U+001F and the space. *)
Definition is_whitespace (c : ascii) : bool :=
  let n := nat_of_ascii c in
  ((9 <=? n)%nat && (n <=? 13)%nat) || ((28 <=? n)%nat && (n <=? 32)%nat).

(** The number of bytes of the whitespace character a text starts with, 0
    when it starts with none.  Besides the ASCII ones, [str.strip] removes
    U+0085 and U+00A0 (C2 85, C2 A0), U+1680 (E1 9A 80), U+2000 to U+200A,
    U+2028, U+2029 and U+202F (E2 80 80 to 8A, A8, A9, AF), U+205F
    (E2 81 9F) and U+3000 (E3 80 80). *)
Definition leading_space (s : list ascii) : nat :=
  match s with
  | [] => 0
  | a :: r =>
      if is_whitespace a then 1 else
      match map nat_of_ascii (take 2 r) with
      | [b] =>
          if (nat_of_ascii a =? 194)%nat && ((b =? 133)%nat || (b =? 160)%nat)
          then 2 else 0
      | [b; c] =>
          let a := nat_of_ascii a in
          if (a =? 194)%nat && ((b =? 133)%nat || (b =? 160)%nat) then 2
          else if (a =? 225)%nat && (b =? 154)%nat && (c =? 128)%nat then 3
          else if (a =? 226)%nat && (b =? 128)%nat &&
                  (((128 <=? c)%nat && (c <=? 138)%nat) ||
                   (c =? 168)%nat || (c =? 169)%nat || (c =? 175)%nat) then 3
          else if (a =? 226)%nat && (b =? 129)%nat && (c =? 159)%nat then 3
          else if (a =? 227)%nat && (b =? 128)%nat && (c =? 128)%nat then 3
          else 0
      | _ => 0
      end
  end.

(** The same for the whitespace character a text ends with, on the bytes in
    reverse order. *)
Definition trailing_space (rev_s : list ascii) : nat :=
  match rev_s with
  | [] => 0
  | c :: r =>
      if is_whitespace c then 1 else
      match r with
      | [] => 0
      | b :: r' =>
          if leading_space [b; c] =? 2 then 2
          else match r' with
               | [] => 0
               | a :: _ => if leading_space [a; b; c] =? 3 then 3 else 0
               end
      end
  end%nat.

Fixpoint strip_leading (width : list ascii -> nat) (fuel : nat) (s : list ascii)
  : list ascii :=
  match fuel with
  | O => s
  | S fuel' =>
      match width s with
      | O => s
      | w => strip_leading width fuel' (drop w s)
      end
  end.

Definition lstrip (s : string) : string :=
  let bytes := list_ascii_of_string s in
  string_of_list_ascii (strip_leading leading_space (length bytes) bytes).

Definition rstrip (s : string) : string :=
  let bytes := rev (list_ascii_of_string s) in
  string_of_list_ascii (rev (strip_leading trailing_space (length bytes) bytes)).

(** [s.strip()] *)
Definition strip (s : string) : string := rstrip (lstrip s).

(** [" ".join(l)]. *)
Definition join (sep : string) (l : list string) : string := String.concat sep l.

(** [str(n)] for a natural number, as an f-string formats it. *)
Definition of_nat (n : nat) : string := NilZero.string_of_uint (Nat.to_uint n).

End Text.

(** ** The outside world *)

(** What [subprocess.run] gives back: a completed process with its exit
    status and captured output as text; an [OSError] because the shell
    could not be started (for instance in a working directory that does not
    exist); or a [UnicodeDecodeError] because the command ran but its output
    is not text in the expected encoding ([text=True]). *)
Inductive Proc : Type :=
  | Completed (returncode : Z) (stdout stderr : string)
  | SpawnError
  | DecodeError.

(** One interaction with the outside world.  [EvCall] marks the entry into
    one of the two stage functions; it stands for no effect of the program
    and only records that control reached the function. *)
Inductive Event : Type :=
  | EvCall (fn : string)
  | EvWhich (cmd : string) (found : bool)
  | EvRun (cmd : string) (cwd : option string) (check : bool) (p : Proc)
  | EvPrint (msg : string)
  | EvPanel (msg style : string)
  | EvProgressAdd (description : string)
  | EvProgressRemove
  | EvMkdtemp (dir : option string)
  | EvMakedirs (path : string) (ok : bool)
  | EvCleanup (dir : string).

Definition Trace : Type := list Event.

(** The environment the program runs in.  Its last two fields stand for
    two functions of the rich library that the markup of the console
    depends on; the properties hold whatever these functions are. *)
Record Env : Type := mkEnv {
  (** [platform.system()] *)
  env_system : string;
  (** [shutil.which(cmd) is not None] *)
  env_which : string -> bool;
  (** [os.cpu_count()] *)
  env_cpu_count : option nat;
  (** the directory [tempfile.TemporaryDirectory()] creates, if it can *)
  env_mkdtemp : Trace -> option string;
  (** whether [os.makedirs(path, exist_ok=True)] goes through *)
  env_makedirs : Trace -> string -> bool;
  (** the outcome of a shell command run in a working directory *)
  env_run : Trace -> string -> option string -> Proc;
  (** rich's [Style.normalize] *)
  env_style_normalize : string -> string;
  (** whether rich can evaluate the parameters of a [@] tag *)
  env_meta_ok : string -> bool
}.

(** ** Computations *)

(** How a computation ends: with a value, with [sys.exit(code)], or with an
    exception nobody catches. *)
Inductive Result (A : Type) : Type :=
  | Ok (a : A)
  | Exited (code : Z)
  | Raised (exn : string).
Arguments Ok {A} a.
Arguments Exited {A} code.
Arguments Raised {A} exn.

Definition M (A : Type) : Type := Env -> Trace -> Result A * Trace.

Definition ret {A : Type} (a : A) : M A := fun _ t => (Ok a, t).

Definition bind {A B : Type} (m : M A) (f : A -> M B) : M B := fun env t =>
  match m env t with
  | (Ok a, t') => f a env t'
  | (Exited code, t') => (Exited code, t')
  | (Raised exn, t') => (Raised exn, t')
  end.

Declare Scope prog_scope.
Delimit Scope prog_scope with prog.
Bind Scope prog_scope with M.
Notation "'let*' x ':=' m 'in' k" := (bind m (fun x => k))
  (at level 10, x name, m at level 100, k at level 200) : prog_scope.
Notation "'let*' ' p ':=' m 'in' k" := (bind m (fun x => match x with p => k end))
  (at level 10, p pattern, m at level 100, k at level 200) : prog_scope.
Notation "m ;; k" := (bind m (fun _ => k))
  (at level 100, k at level 200, right associativity) : prog_scope.
Open Scope prog_scope.

Definition emit (e : Event) : M unit := fun _ t => (Ok tt, t ++ [e]).

Definition sys_exit {A : Type} (code : Z) : M A := fun _ t => (Exited code, t).

Definition ask : M Env := fun env t => (Ok env, t).

(** The exit status of the process when [main] ends with [r]: a normal
    return is status 0, an uncaught exception is status 1. *)
Definition exit_status (r : Result unit) : Z :=
  match r with
  | Ok _ => 0
  | Exited code => code
  | Raised _ => 1
  end.

(** ** Console markup

    [console.print] of rich reads its text as markup: a name in square
    brackets opens a tag and the name after a slash, in square brackets,
    closes it.  A closing tag with no open tag to close raises
    [MarkupError]; so does a [@] tag whose parameters cannot be evaluated.
    This follows [rich.markup.render]. *)

Module Markup.

(** A tag: its name and the parameters after [=], if any. *)
Record Tag : Type := mkTag { name : string; parameters : option string }.

(** The characters a tag can start with: a to z, #, / and @. *)
Definition tag_start (c : ascii) : bool :=
  let n := nat_of_ascii c in
  ((97 <=? n)%nat && (n <=? 122)%nat) ||
  (n =? 35)%nat || (n =? 47)%nat || (n =? 64)%nat.

(** The text up to the first closing bracket and the text after it; no
    opening bracket may come before. *)
Fixpoint tag_body (s : string) : option (string * string) :=
  match s with
  | EmptyString => None
  | String c r =>
      if Ascii.eqb c "]" then Some (EmptyString, r)
      else if Ascii.eqb c "[" then None
      else match tag_body r with
           | Some (body, rest) => Some (String c body, rest)
           | None => None
           end
  end.

(** A tag at the start of [s], the text right after an opening bracket. *)
Definition tag_at (s : string) : option (string * string) :=
  match s with
  | EmptyString => None
  | String c _ => if tag_start c then tag_body s else None
  end.

(** [text.partition("=")] *)
Fixpoint partition_equals (s : string) : string * option string :=
  match s with
  | EmptyString => (EmptyString, None)
  | String c r =>
      if Ascii.eqb c "=" then (EmptyString, Some r)
      else let '(text, parameters) := partition_equals r in
           (String c text, parameters)
  end.

(** The tags of a text, in order ([_parse], the matches of [RE_TAGS]): an
    opening bracket, a character a tag can start with, and the text up to
    the first closing bracket, with no opening bracket in between.  A tag
    after an odd number of backslashes is escaped and no tag.
    [backslashes] counts the backslashes just before the current
    position. *)
Fixpoint tags_from (fuel : nat) (backslashes : nat) (s : string) : list Tag :=
  match fuel with
  | O => []
  | S fuel' =>
      match s with
      | EmptyString => []
      | String c r =>
          if Ascii.eqb c "\" then tags_from fuel' (S backslashes) r
          else if Ascii.eqb c "[" then
            match tag_at r with
            | Some (tag_text, rest) =>
                if Nat.even backslashes then
                  let '(text, parameters) := partition_equals tag_text in
                  mkTag text parameters :: tags_from fuel' 0 rest
                else tags_from fuel' 0 rest
            | None => tags_from fuel' 0 r
            end
          else tags_from fuel' 0 r
      end
  end.

Definition tags (markup : string) : list Tag :=
  tags_from (String.length markup) 0 markup.

(** [pop_style]: takes the innermost open tag of that name off the stack
    (the innermost open tag comes first). *)
Fixpoint pop_style (style_name : string) (style_stack : list Tag)
  : option (Tag * list Tag) :=
  match style_stack with
  | [] => None
  | tag :: below =>
      if String.eqb (name tag) style_name then Some (tag, below)
      else match pop_style style_name below with
           | Some (found, below') => Some (found, tag :: below')
           | None => None
           end
  end.

(** Whether closing [open_tag] fails: a [@] tag with parameters that cannot
    be evaluated. *)
Definition meta_fails (env : Env) (open_tag : Tag) : bool :=
  match parameters open_tag with
  | Some p =>
      negb (String.eqb p EmptyString) && String.prefix "@" (name open_tag) &&
      negb (env_meta_ok env p)
  | None => false
  end.

(** The loop of [render] over the tags: [true] when it ends without
    [MarkupError]. *)
Fixpoint render (env : Env) (tag_list : list Tag) (style_stack : list Tag) : bool :=
  match tag_list with
  | [] => true
  | tag :: more =>
      if String.prefix "/" (name tag) then (* closing tag *)
        let style_name := Text.strip (String.substring 1 (String.length (name tag)) (name tag)) in
        match (if String.eqb style_name EmptyString
               then (* implicit close *)
                    match style_stack with
                    | [] => None
                    | open_tag :: below => Some (open_tag, below)
                    end
               else pop_style (env_style_normalize env style_name) style_stack)
        with
        | None => false
        | Some (open_tag, style_stack') =>
            if meta_fails env open_tag then false
            else render env more style_stack'
        end
      else (* opening tag *)
        render env more
               (mkTag (env_style_normalize env (name tag)) (parameters tag)
                :: style_stack)
  end.

(** Whether rich renders the markup without raising. *)
Definition accepts (env : Env) (markup : string) : bool :=
  render env (tags markup) [].

End Markup.

Arguments Markup.accepts : simpl never.
Arguments Text.strip : simpl never.

(** [console.print(msg)]: nothing is printed when the markup is refused.
    The stream of the console is taken to accept every text. *)
Definition console_print (msg : string) : M unit := fun env t =>
  if Markup.accepts env msg then (Ok tt, t ++ [EvPrint msg])
  else (Raised "MarkupError", t).

(** ** run_command *)

Definition run_command (cmd : string) (cwd : option string) (check : bool)
  : M (bool * string * string) := fun env t =>
  match env_run env t cmd cwd with
  | Completed returncode stdout stderr =>
      let t' := t ++ [EvRun cmd cwd check (Completed returncode stdout stderr)] in
      if check && negb (returncode =? 0)%Z
      then (* CalledProcessError, caught *) (Ok (false, stdout, stderr), t')
      else (Ok ((returncode =? 0)%Z, stdout, stderr), t')
  | SpawnError => (Raised "OSError", t ++ [EvRun cmd cwd check SpawnError])
  | DecodeError =>
      (Raised "UnicodeDecodeError", t ++ [EvRun cmd cwd check DecodeError])
  end.

(** ** check_command_exists *)

Definition check_command_exists (cmd : string) : M bool := fun env t =>
  let found := env_which env cmd in (Ok found, t ++ [EvWhich cmd found]).

(** ** detect_platform *)

Definition detect_platform : M (string * string) :=
  let* env := ask in
  let system := Text.lower (env_system env) in
  if String.eqb system "linux" then
    let* apt := check_command_exists "apt-get" in
    if apt then ret ("ubuntu", "apt") else
    let* dnf := check_command_exists "dnf" in
    if dnf then ret ("fedora", "dnf") else
    let* pacman := check_command_exists "pacman" in
    if pacman then ret ("arch", "pacman") else
    ret ("linux", "unknown")
  else if String.eqb system "darwin" then
    ret ("macos", "brew")
  else if String.eqb system "windows" then
    let* pacman := check_command_exists "pacman" in  (* MSYS2 *)
    if pacman then ret ("windows", "msys2") else
    let* vcpkg := check_command_exists "vcpkg" in
    if vcpkg then ret ("windows", "vcpkg") else
    ret ("windows", "unknown")
  else
    ret ("unknown", "unknown").

(** ** install_dependencies *)

Definition deps : gmap string (list string) :=
  list_to_map [
    ("ubuntu", [
      "build-essential"; "cmake"; "pkg-config";
      "libncurses-dev"; "libunistring-dev";
      "libavformat-dev"; "libavutil-dev";
      "libswscale-dev"; "libqrcodegen-dev"; "git"
    ]);
    ("fedora", [
      "gcc-c++"; "cmake"; "pkgconfig";
      "ncurses-devel"; "libunistring-devel";
      "ffmpeg-devel"; "qrencode-devel"; "git"
    ]);
    ("arch", ["notcurses"]);
    ("macos", ["notcurses"]);
    ("msys2", [
      "mingw-w64-x86_64-gcc"; "mingw-w64-x86_64-cmake";
      "mingw-w64-x86_64-pkg-config"; "mingw-w64-x86_64-ncurses";
      "mingw-w64-x86_64-ffmpeg"; "git"
    ])
  ].

Definition commands (platform_name : string) : gmap string string :=
  list_to_map [
    ("apt", "sudo apt-get update && sudo apt-get install -y");
    ("dnf", "sudo dnf install -y");
    ("pacman", if String.eqb platform_name "msys2"
               then "sudo pacman -S --needed --noconfirm" else "yay -S");
    ("brew", "brew install")
  ].

Definition install_dependencies (platform_name package_manager : string)
  : M (bool * string) :=
  emit (EvCall "install_dependencies");;
  match deps !! platform_name with
  | None => ret (false, "Unsupported platform: " +:+ platform_name)
  | Some pkgs =>
  match commands platform_name !! package_manager with
  | None => ret (false, "Unsupported package manager: " +:+ package_manager)
  | Some template =>
      let packages := Text.join " " pkgs in
      let cmd := template +:+ " " +:+ packages in
      console_print ("[blue]Installing dependencies: " +:+ packages +:+ "[/blue]");;
      let* '(success, _, stderr) := run_command cmd None true in
      if negb success then
        ret (false, "Failed to install dependencies: " +:+ stderr)
      else
        ret (true, "Dependencies installed successfully")
  end
  end.

(** ** build_notcurses *)

(** [with tempfile.TemporaryDirectory() as temp_dir: body]: the directory is
    removed when the body is left, however it is left. *)
Definition with_temporary_directory {A : Type} (body : string -> M A) : M A :=
  fun env t =>
  match env_mkdtemp env t with
  | None => (Raised "OSError", t ++ [EvMkdtemp None])
  | Some temp_dir =>
      let '(r, t') := body temp_dir env (t ++ [EvMkdtemp (Some temp_dir)]) in
      (r, t' ++ [EvCleanup temp_dir])
  end.

Fixpoint ends_with (c : ascii) (s : string) : bool :=
  match s with
  | EmptyString => false
  | String x EmptyString => Ascii.eqb x c
  | String _ r => ends_with c r
  end.

(** [os.path.join(a, b)] of posixpath. *)
Definition os_path_join (a b : string) : string :=
  if String.prefix "/" b then b
  else if String.eqb a EmptyString || ends_with "/" a then a +:+ b
  else a +:+ "/" +:+ b.

(** [os.makedirs(path, exist_ok=True)] *)
Definition os_makedirs (path : string) : M unit := fun env t =>
  let ok := env_makedirs env t path in
  (if ok then Ok tt else Raised "OSError", t ++ [EvMakedirs path ok]).

(** [os.cpu_count() or default]: [None] and 0 both give the default. *)
Definition os_cpu_count_or (default : nat) : M nat :=
  let* env := ask in
  ret match env_cpu_count env with
      | Some n => if (n =? 0)%nat then default else n
      | None => default
      end.

(** [platform.system().lower()] *)
Definition platform_system_lower : M string :=
  let* env := ask in ret (Text.lower (env_system env)).

Definition build_notcurses : M (bool * string) :=
  emit (EvCall "build_notcurses");;
  with_temporary_directory (fun temp_dir =>
    console_print "[blue]Downloading notcurses source...[/blue]";;

    (* Clone notcurses *)
    let* '(success, _, stderr) :=
      run_command "git clone https://github.com/dankamongmen/notcurses.git"
                  (Some temp_dir) true in
    if negb success then ret (false, "Failed to clone notcurses: " +:+ stderr) else

    let notcurses_dir := os_path_join temp_dir "notcurses" in

    (* Checkout v3.0.11 *)
    let* '(success, _, stderr) :=
      run_command "git checkout v3.0.11" (Some notcurses_dir) true in
    if negb success then ret (false, "Failed to checkout v3.0.11: " +:+ stderr) else

    (* Create build directory *)
    let build_dir := os_path_join notcurses_dir "build" in
    os_makedirs build_dir;;

    console_print "[blue]Configuring build...[/blue]";;
    let* '(success, _, stderr) :=
      run_command "cmake .. -DCMAKE_BUILD_TYPE=Release" (Some build_dir) true in
    if negb success then ret (false, "Failed to configure build: " +:+ stderr) else

    console_print "[blue]Building notcurses (this may take a few minutes)...[/blue]";;
    let* cpu_count := os_cpu_count_or 4 in
    let* '(success, _, stderr) :=
      run_command ("make -j" +:+ Text.of_nat cpu_count) (Some build_dir) true in
    if negb success then ret (false, "Failed to build notcurses: " +:+ stderr) else

    console_print "[blue]Installing notcurses...[/blue]";;
    let* '(success, _, stderr) :=
      run_command "sudo make install" (Some build_dir) true in
    if negb success then ret (false, "Failed to install notcurses: " +:+ stderr) else

    (* Update library cache *)
    let* system := platform_system_lower in
    (if String.eqb system "linux"
     then run_command "sudo ldconfig" None true;; ret tt
     else ret tt);;

    ret (true, "notcurses 3.0.11 installed successfully")).

(** ** main *)

Definition pinned_version : string := "3.0.11".

Definition version_query : string := "pkg-config --modversion notcurses".

Definition banner : Event :=
  EvPanel ("[bold blue]TUI Framework Installer[/bold blue]" +:+ Text.nl +:+
           "Installing notcurses 3.0.11 and dependencies...")
          "blue".

Definition closing_panel : Event :=
  EvPanel ("[bold green]Installation Complete![/bold green]" +:+ Text.nl +:+ Text.nl +:+
           "Next steps:" +:+ Text.nl +:+
           "1. Clone the TUI Framework:" +:+ Text.nl +:+
           "   [cyan]git clone https://github.com/entrepeneur4lyf/tui-framework.git[/cyan]" +:+ Text.nl +:+
           "2. Test the framework:" +:+ Text.nl +:+
           "   [cyan]cd tui-framework && cargo run --example backend_test --features notcurses[/cyan]")
          "green".

(** Lines 204-219: the dependency stage. *)
Definition install_stage (skip_deps : bool) (platform_name package_manager : string)
  : M unit :=
  if negb skip_deps then
    emit (EvProgressAdd "Installing dependencies...");;
    let* '(success, message) := install_dependencies platform_name package_manager in
    emit EvProgressRemove;;
    if success then
      console_print ("[green]SUCCESS: " +:+ message +:+ "[/green]")
    else
      console_print ("[red]ERROR: " +:+ message +:+ "[/red]");;
      sys_exit 1
  else ret tt.

(** Lines 221-236: the source-build stage. *)
Definition build_stage (skip_build : bool) (platform_name : string) : M unit :=
  if negb skip_build && negb (bool_decide (platform_name ∈ ["arch"; "macos"])) then
    emit (EvProgressAdd "Building notcurses...");;
    let* '(success, message) := build_notcurses in
    emit EvProgressRemove;;
    if success then
      console_print ("[green]SUCCESS: " +:+ message +:+ "[/green]")
    else
      console_print ("[red]ERROR: " +:+ message +:+ "[/red]");;
      sys_exit 1
  else ret tt.

(** Lines 238-247: the verification stage. *)
Definition test_stage (test : bool) : M unit :=
  if test then
    console_print "[blue]Testing installation...[/blue]";;
    let* '(success, stdout, _) := run_command version_query None false in
    if success then
      let version := Text.strip stdout in
      console_print ("[green]SUCCESS: notcurses " +:+ version +:+ " detected[/green]")
    else
      console_print "[red]ERROR: Installation verification failed[/red]";;
      sys_exit 1
  else ret tt.

(** Lines 204-257: what [main] does after the check for an installed
    notcurses, unless that check made it return. *)
Definition stages (skip_deps skip_build test : bool)
    (platform_name package_manager : string) : M unit :=
  install_stage skip_deps platform_name package_manager;;
  build_stage skip_build platform_name;;
  test_stage test;;
  emit closing_panel.

Definition main (skip_deps skip_build test : bool) : M unit :=
  emit banner;;

  (* Detect platform *)
  let* '(platform_name, package_manager) := detect_platform in
  console_print ("[green]Detected platform: " +:+ platform_name +:+
                 " (" +:+ package_manager +:+ ")[/green]");;

  (if String.eqb platform_name "unknown" then
     console_print "[red]ERROR: Unsupported platform detected[/red]";;
     console_print "Supported platforms:";;
     console_print "  - Linux (Ubuntu, Fedora, Arch)";;
     console_print "  - macOS (with Homebrew)";;
     console_print "  - Windows (with MSYS2)";;
     sys_exit 1
   else ret tt);;

  (* Check if notcurses is already installed *)
  let* '(success, stdout, _) := run_command version_query None false in
  if success && Text.contains pinned_version stdout then
    console_print "[green]SUCCESS: notcurses 3.0.11 already installed[/green]";;
    if negb test then ret tt (* return *)
    else stages skip_deps skip_build test platform_name package_manager
  else stages skip_deps skip_build test platform_name package_manager.

(** ** Vocabulary of the statements *)

(** Every event a computation adds to the trace, in environment [env],
    satisfies [P]. *)
Definition emits {A : Type} (env : Env) (P : Event -> Prop) (m : M A) : Prop :=
  forall t r t', m env t = (r, t') -> exists l, t' = t ++ l /\ Forall P l.

(** The five commands of the source build whose result is looked at. *)
Inductive Step : Type := Clone | Checkout | Configure | Compile | Install.

Definition step_cmd (env : Env) (s : Step) : string :=
  match s with
  | Clone => "git clone https://github.com/dankamongmen/notcurses.git"
  | Checkout => "git checkout v3.0.11"
  | Configure => "cmake .. -DCMAKE_BUILD_TYPE=Release"
  | Compile =>
      "make -j" +:+ Text.of_nat match env_cpu_count env with
                                | Some n => if (n =? 0)%nat then 4 else n
                                | None => 4
                                end
  | Install => "sudo make install"
  end.

Definition step_failure (s : Step) : string :=
  match s with
  | Clone => "Failed to clone notcurses: "
  | Checkout => "Failed to checkout v3.0.11: "
  | Configure => "Failed to configure build: "
  | Compile => "Failed to build notcurses: "
  | Install => "Failed to install notcurses: "
  end.

Definition step_index (s : Step) : nat :=
  match s with
  | Clone => 0 | Checkout => 1 | Configure => 2 | Compile => 3 | Install => 4
  end.

(** The command of a trace event, when the event is a shell command. *)
Definition command_of (e : Event) : option string :=
  match e with EvRun cmd _ _ _ => Some cmd | _ => None end.

(** The events that are not the entry into [build_notcurses]. *)
Definition not_build_call (e : Event) : Prop := e <> EvCall "build_notcurses".

(** A line of the console that reports an error. *)
Definition is_error_line (e : Event) : bool :=
  match e with
  | EvPrint msg => String.prefix "[red]ERROR: " msg
  | _ => false
  end.

(** A computation prints an error line exactly when it exits, and it exits
    with code 1 only. *)
Definition disciplined {A : Type} (env : Env) (m : M A) : Prop :=
  forall t r t', m env t = (r, t') ->
    exists l, t' = t ++ l /\
      match r with
      | Exited code => code = 1%Z /\ existsb is_error_line l = true
      | _ => existsb is_error_line l = false
      end.

(** A computation that exits with code 1, whatever the trace. *)
Definition dying {A : Type} (env : Env) (m : M A) : Prop :=
  forall t, exists l, m env t = (Exited 1, t ++ l).

(** The events of a run that changes nothing on the host: console output,
    probes of the search path and the version query. *)
Definition is_read_only (e : Event) : bool :=
  match e with
  | EvRun cmd _ _ _ => String.eqb cmd version_query
  | EvWhich _ _ | EvPrint _ | EvPanel _ _ => true
  | _ => false
  end.

(** The shell commands [build_notcurses] hands to the command runner. *)
Definition is_build_command (cmd : string) : bool :=
  String.prefix "make -j" cmd ||
  bool_decide (cmd ∈ ["git clone https://github.com/dankamongmen/notcurses.git";
                      "git checkout v3.0.11";
                      "cmake .. -DCMAKE_BUILD_TYPE=Release";
                      "sudo make install";
                      "sudo ldconfig"]).

(** The events of [main] before its stages: the banner, the probes, console
    lines and the first version query. *)
Definition is_prelude (e : Event) : bool :=
  match e with
  | EvPanel _ style => String.eqb style "blue"
  | EvWhich _ _ | EvPrint _ => true
  | EvRun cmd None false _ => String.eqb cmd version_query
  | _ => false
  end.

(** Events that are not a command run in a working directory. *)
Definition runs_nowhere (e : Event) : Prop :=
  forall cmd dir check p, e <> EvRun cmd (Some dir) check p.

(** Events that belong to no source build: neither the entry into
    [build_notcurses] nor a command run in a working directory. *)
Definition outside_build (e : Event) : Prop :=
  not_build_call e /\ runs_nowhere e.

(** Events that are not a checked command of the package manager: every
    command run with [check] is one of the source build. *)
Definition no_install_command (e : Event) : Prop :=
  forall cmd cwd p, e = EvRun cmd cwd true p -> is_build_command cmd = true.

(** A sufficient condition for markup to be accepted whatever the
    environment: tags carry no parameters and every closing tag closes the
    innermost open tag, by its exact name or implicitly. *)
Fixpoint strictly_nested (tag_list : list Markup.Tag) (open_names : list string)
  : bool :=
  match tag_list with
  | [] => true
  | tag :: more =>
      match Markup.parameters tag with
      | Some _ => false
      | None =>
          if String.prefix "/" (Markup.name tag) then
            let style_name :=
              Text.strip (String.substring 1 (String.length (Markup.name tag))
                                           (Markup.name tag)) in
            match open_names with
            | [] => false
            | top :: below =>
                (String.eqb style_name EmptyString || String.eqb top style_name)
                && strictly_nested more below
            end
          else strictly_nested more (Markup.name tag :: open_names)
      end
  end.

(** ** Sample environments *)

Module Samples.

(** Whether [cmd] was run somewhere in the trace. *)
Definition ran (cmd : string) (t : Trace) : bool :=
  existsb (fun e => match command_of e with
                    | Some c => String.eqb c cmd
                    | None => false
                    end) t.

Definition succeed (stdout : string) : Proc := Completed 0 stdout EmptyString.

(** What [Style.normalize] does to a name that is no style definition. *)
Definition normalize (style : string) : string := Text.lower (Text.strip style).

Definition meta_ok (parameters : string) : bool := true.

(** An Arch Linux host: only [pacman] is on the search path. *)
Definition arch_host : Env :=
  mkEnv "Linux" (fun cmd => String.eqb cmd "pacman") (Some 8)
        (fun _ => Some "/tmp/tmpk3") (fun _ _ => true)
        (fun _ _ _ => Completed 1 EmptyString "Package notcurses was not found")
        normalize meta_ok.

(** A Windows host with MSYS2. *)
Definition windows_host : Env :=
  mkEnv "Windows" (fun cmd => String.eqb cmd "pacman") (Some 4)
        (fun _ => Some "C:\tmp") (fun _ _ => true)
        (fun _ _ _ => Completed 1 EmptyString "not found")
        normalize meta_ok.

(** A host whose system is none of the three known ones. *)
Definition freebsd_host : Env :=
  mkEnv "FreeBSD" (fun _ => true) None
        (fun _ => Some "/tmp/tmpk3") (fun _ _ => true)
        (fun _ _ _ => succeed EmptyString)
        normalize meta_ok.

(** An Ubuntu host on which every command succeeds and an older notcurses
    (3.0.10) is installed. *)
Definition ubuntu_old_version : Env :=
  mkEnv "Linux" (fun cmd => String.eqb cmd "apt-get") (Some 8)
        (fun _ => Some "/tmp/tmpk3") (fun _ _ => true)
        (fun _ cmd _ =>
           if String.eqb cmd version_query then succeed ("3.0.10" +:+ Text.nl)
           else succeed EmptyString)
        normalize meta_ok.

(** An Ubuntu host whose package-config query prints a version that only
    contains the pinned one. *)
Definition ubuntu_lookalike_version : Env :=
  mkEnv "Linux" (fun cmd => String.eqb cmd "apt-get") (Some 8)
        (fun _ => Some "/tmp/tmpk3") (fun _ _ => true)
        (fun _ cmd _ =>
           if String.eqb cmd version_query then succeed ("13.0.112" +:+ Text.nl)
           else succeed EmptyString)
        normalize meta_ok.

(** An Ubuntu host without notcurses where the build goes through but the
    refresh of the linker cache fails. *)
Definition ubuntu_ldconfig_fails : Env :=
  mkEnv "Linux" (fun cmd => String.eqb cmd "apt-get") None
        (fun _ => Some "/tmp/tmpk3") (fun _ _ => true)
        (fun t cmd _ =>
           if String.eqb cmd "sudo ldconfig"
           then Completed 1 EmptyString "ldconfig: Can't create temporary cache file"
           else if String.eqb cmd version_query
           then (if ran "sudo make install" t
                 then succeed ("3.0.11" +:+ Text.nl)
                 else Completed 1 EmptyString "Package notcurses was not found")
           else succeed EmptyString)
        normalize meta_ok.

(** An Ubuntu host without network: the clone fails. *)
Definition ubuntu_offline : Env :=
  mkEnv "Linux" (fun cmd => String.eqb cmd "apt-get") (Some 2)
        (fun _ => Some "/tmp/tmpk3") (fun _ _ => true)
        (fun _ cmd _ =>
           if String.prefix "git clone" cmd
           then Completed 128 EmptyString "fatal: unable to access the repository"
           else if String.eqb cmd version_query
           then Completed 1 EmptyString "Package notcurses was not found"
           else succeed EmptyString)
        normalize meta_ok.

(** An Ubuntu host on which the build directory cannot be created. *)
Definition ubuntu_no_build_dir : Env :=
  mkEnv "Linux" (fun cmd => String.eqb cmd "apt-get") (Some 0)
        (fun _ => Some "/tmp/tmpk3") (fun _ _ => false)
        (fun _ _ _ => succeed EmptyString)
        normalize meta_ok.



(** An Ubuntu host on which the output of the version query is not text in
    the encoding of the locale. *)
Definition ubuntu_latin1_output : Env :=
  mkEnv "Linux" (fun cmd => String.eqb cmd "apt-get") (Some 8)
        (fun _ => Some "/tmp/tmpk3") (fun _ _ => true)
        (fun _ cmd _ =>
           if String.eqb cmd version_query then DecodeError
           else succeed EmptyString)
        normalize meta_ok.

End Samples.

(** * Properties *)

(** ** Text *)

Lemma prefix_refl (s : string) : String.prefix s s = true.
Proof.
  induction s as [|c s IH]; simpl; [reflexivity|].
  destruct (ascii_dec c c); [exact IH | congruence].
Qed.

Lemma prefix_app (p s : string) : String.prefix p (p +:+ s) = true.
Proof.
  induction p as [|c p IH]; simpl.
  - destruct s; reflexivity.
  - destruct (ascii_dec c c); [exact IH | congruence].
Qed.

Lemma prefix_split (p s : string) :
  String.prefix p s = true -> exists q, s = p +:+ q.
Proof.
  revert s; induction p as [|c p IH]; intros s H.
  - exists s; reflexivity.
  - destruct s as [|d s]; simpl in H; [discriminate|].
    destruct (ascii_dec c d) as [->|]; [|discriminate].
    destruct (IH _ H) as [q ->]. exists q; reflexivity.
Qed.

Lemma contains_unfold (sub s : string) :
  Text.contains sub s =
  String.prefix sub s ||
  match s with EmptyString => false | String _ r => Text.contains sub r end.
Proof. destruct s; reflexivity. Qed.

Lemma contains_prefix (sub s : string) :
  String.prefix sub s = true -> Text.contains sub s = true.
Proof. intros H. rewrite contains_unfold, H. reflexivity. Qed.

Lemma contains_skip (sub p s : string) :
  Text.contains sub s = true -> Text.contains sub (p +:+ s) = true.
Proof.
  intros H. induction p as [|c p IH]; [exact H|].
  rewrite contains_unfold. change (String c p +:+ s) with (String c (p +:+ s)).
  cbv iota. rewrite IH. apply orb_true_r.
Qed.

(** [contains] is Python's [in]: [sub] occurs in [s] exactly when [s] is
    some text, then [sub], then some text. *)
Lemma contains_spec (sub s : string) :
  Text.contains sub s = true <-> exists p q, s = p +:+ sub +:+ q.
Proof.
  split.
  - induction s as [|c s IH]; rewrite contains_unfold; intros H.
    + rewrite orb_false_r in H. destruct (prefix_split _ _ H) as [q Hq].
      exists EmptyString, q. exact Hq.
    + apply orb_true_iff in H as [H|H].
      * destruct (prefix_split _ _ H) as [q Hq]. exists EmptyString, q. exact Hq.
      * destruct (IH H) as (p & q & ->). exists (String c p), q. reflexivity.
  - intros (p & q & ->). apply contains_skip, contains_prefix, prefix_app.
Qed.

Lemma contains_app_l (sub s : string) : Text.contains sub (sub +:+ s) = true.
Proof. apply contains_prefix, prefix_app. Qed.

Lemma contains_app_r (p sub : string) : Text.contains sub (p +:+ sub) = true.
Proof. apply contains_skip, contains_prefix, prefix_refl. Qed.

(** [strip] removes the whitespace at both ends and none inside; the
    no-break space U+00A0 and the ideographic space U+3000 are whitespace. *)
Lemma strip_examples :
  Text.strip ("3.0.10" +:+ Text.nl) = "3.0.10" /\
  Text.strip ("  3.0 .11 " +:+ Text.nl) = "3.0 .11" /\
  Text.strip (String (ascii_of_nat 194) (String (ascii_of_nat 160) "3.0.11") +:+
              String (ascii_of_nat 227)
                (String (ascii_of_nat 128) (String (ascii_of_nat 128) EmptyString)))
  = "3.0.11".
Proof. repeat split. Qed.

(** ** Console markup *)

(** A closing tag that closes nothing is refused, also when it only looks
    like a tag; after a backslash it is text. *)
Lemma markup_examples :
  Markup.accepts Samples.arch_host "[red]ERROR: no such file[/red]" = true /\
  Markup.accepts Samples.arch_host "[red]ERROR: target not found: [/notcurses][/red]"
  = false /\
  Markup.accepts Samples.arch_host "[red]ERROR: target not found: \[/notcurses][/red]"
  = true /\
  Markup.accepts Samples.arch_host "[green]SUCCESS: notcurses [/] detected[/green]"
  = false /\
  Markup.accepts Samples.arch_host "[red]ERROR: [Makefile:146: all] Error 2[/red]"
  = true.
Proof. repeat split. Qed.

Lemma render_strictly_nested (env : Env) (tag_list : list Markup.Tag)
    (open_names : list string) :
  strictly_nested tag_list open_names = true ->
  Markup.render env tag_list
    (map (fun n => Markup.mkTag (env_style_normalize env n) None) open_names) = true.
Proof.
  revert open_names. induction tag_list as [|tag more IH]; intros open_names H.
  - reflexivity.
  - cbn [strictly_nested] in H. cbn [Markup.render].
    destruct (Markup.parameters tag) eqn:Hp; [discriminate|].
    destruct (String.prefix "/" (Markup.name tag)).
    + destruct open_names as [|top below]; [discriminate|].
      apply andb_true_iff in H as [Hn H].
      cbn [map].
      destruct (String.eqb _ EmptyString) eqn:He.
      * cbn. apply IH, H.
      * cbn in Hn. apply String.eqb_eq in Hn as ->.
        cbn [Markup.pop_style Markup.name]. rewrite String.eqb_refl.
        cbn. apply IH, H.
    + apply (IH (Markup.name tag :: open_names)), H.
Qed.

(** The lines the program prints without text from outside are accepted in
    every environment. *)
Lemma accepts_strictly_nested (env : Env) (markup : string) :
  strictly_nested (Markup.tags markup) [] = true -> Markup.accepts env markup = true.
Proof. intros H. apply (render_strictly_nested env _ [] H). Qed.

(** The two panels hold markup the console accepts, so printing a panel
    cannot fail. *)
Lemma panels_accepted (env : Env) (e : Event) (msg style : string) :
  e = banner \/ e = closing_panel -> e = EvPanel msg style ->
  Markup.accepts env msg = true.
Proof.
  intros [-> | ->] [= <- _]; apply accepts_strictly_nested; reflexivity.
Qed.

Lemma console_print_accepted (msg : string) (env : Env) (t : Trace) :
  Markup.accepts env msg = true ->
  console_print msg env t = (Ok tt, t ++ [EvPrint msg]).
Proof. intros H. unfold console_print. rewrite H. reflexivity. Qed.

Lemma console_print_refused (msg : string) (env : Env) (t : Trace) :
  Markup.accepts env msg = false ->
  console_print msg env t = (Raised "MarkupError", t).
Proof. intros H. unfold console_print. rewrite H. reflexivity. Qed.

(** Replaces the verdict on every line without text from outside. *)
Ltac accept_constants env :=
  repeat (match goal with
          | |- context [Markup.accepts env ?s] =>
              rewrite (accepts_strictly_nested env s) by reflexivity
          end; cbv beta iota).

(** ** The platform detector *)

(** What [detect_platform] returns and what it probes do not depend on the
    trace so far. *)
Lemma detect_platform_stable (env : Env) :
  exists pair probes,
    Forall (fun e => exists cmd found, e = EvWhich cmd found) probes /\
    forall t, detect_platform env t = (Ok pair, t ++ probes).
Proof.
  unfold detect_platform, bind, ask, check_command_exists, ret.
  destruct (String.eqb (Text.lower (env_system env)) "linux");
    [| destruct (String.eqb (Text.lower (env_system env)) "darwin");
       [| destruct (String.eqb (Text.lower (env_system env)) "windows")]];
    repeat match goal with
           | |- context [env_which env ?c] => destruct (env_which env c)
           end;
    eexists; eexists; (split; [| intros t; rewrite <- ?app_assoc; simpl;
                                 first [reflexivity | rewrite app_nil_r; reflexivity]]);
    repeat constructor; eauto.
Qed.

(** C3: [detect_platform] follows the priority rules.  On "linux" it probes
    [apt-get], then [dnf], then [pacman], and the first one found decides
    (only [pacman] found gives arch/pacman, none found gives linux/unknown);
    on "darwin" it answers macos/brew and probes nothing; on "windows" it
    probes [pacman], then [vcpkg], the first one found deciding the manager
    (msys2, vcpkg, or unknown when none is found) of the platform windows;
    on a system that is none of "linux", "darwin", "windows" it answers
    unknown/unknown. *)
Theorem detect_platform_priority (env : Env) (t : Trace) :
  let system := Text.lower (env_system env) in
  (system = "linux" ->
     (env_which env "apt-get" = true ->
        detect_platform env t
        = (Ok ("ubuntu", "apt"), t ++ [EvWhich "apt-get" true])) /\
     (env_which env "apt-get" = false -> env_which env "dnf" = true ->
        detect_platform env t
        = (Ok ("fedora", "dnf"),
           t ++ [EvWhich "apt-get" false; EvWhich "dnf" true])) /\
     (env_which env "apt-get" = false -> env_which env "dnf" = false ->
      env_which env "pacman" = true ->
        detect_platform env t
        = (Ok ("arch", "pacman"),
           t ++ [EvWhich "apt-get" false; EvWhich "dnf" false;
                 EvWhich "pacman" true])) /\
     (env_which env "apt-get" = false -> env_which env "dnf" = false ->
      env_which env "pacman" = false ->
        detect_platform env t
        = (Ok ("linux", "unknown"),
           t ++ [EvWhich "apt-get" false; EvWhich "dnf" false;
                 EvWhich "pacman" false]))) /\
  (system = "darwin" -> detect_platform env t = (Ok ("macos", "brew"), t)) /\
  (system = "windows" ->
     (env_which env "pacman" = true ->
        detect_platform env t
        = (Ok ("windows", "msys2"), t ++ [EvWhich "pacman" true])) /\
     (env_which env "pacman" = false -> env_which env "vcpkg" = true ->
        detect_platform env t
        = (Ok ("windows", "vcpkg"),
           t ++ [EvWhich "pacman" false; EvWhich "vcpkg" true])) /\
     (env_which env "pacman" = false -> env_which env "vcpkg" = false ->
        detect_platform env t
        = (Ok ("windows", "unknown"),
           t ++ [EvWhich "pacman" false; EvWhich "vcpkg" false]))) /\
  (system <> "linux" -> system <> "darwin" -> system <> "windows" ->
     detect_platform env t = (Ok ("unknown", "unknown"), t)).
Proof.
  intros system.
  unfold detect_platform, bind, ask, check_command_exists, ret.
  fold system. split; [| split; [| split]].
  - intros ->. simpl.
    repeat split; intros;
      repeat match goal with
             | H : env_which env _ = _ |- _ => rewrite H; clear H
             end;
      rewrite <- ?app_assoc; reflexivity.
  - intros ->. reflexivity.
  - intros ->. simpl.
    repeat split; intros;
      repeat match goal with
             | H : env_which env _ = _ |- _ => rewrite H; clear H
             end;
      rewrite <- ?app_assoc; reflexivity.
  - intros Hl Hd Hw.
    apply String.eqb_neq in Hl, Hd, Hw. rewrite Hl, Hd, Hw. reflexivity.
Qed.

Lemma detect_platform_priority_witness :
  detect_platform Samples.arch_host []
  = (Ok ("arch", "pacman"),
     [EvWhich "apt-get" false; EvWhich "dnf" false; EvWhich "pacman" true]) /\
  detect_platform Samples.windows_host []
  = (Ok ("windows", "msys2"), [EvWhich "pacman" true]) /\
  detect_platform Samples.freebsd_host [] = (Ok ("unknown", "unknown"), []).
Proof.
  destruct (detect_platform_priority Samples.arch_host []) as [Hlinux _].
  destruct (detect_platform_priority Samples.windows_host [])
    as (_ & _ & Hwindows & _).
  destruct (detect_platform_priority Samples.freebsd_host [])
    as (_ & _ & _ & Hother).
  split; [| split].
  - apply Hlinux; reflexivity.
  - apply Hwindows; reflexivity.
  - apply Hother; discriminate.
Defined.

(** No system makes [detect_platform] answer with the platform name
    "msys2". *)
Lemma detect_platform_not_msys2 (env : Env) (t t' : Trace) (p pm : string) :
  detect_platform env t = (Ok (p, pm), t') -> p <> "msys2".
Proof.
  unfold detect_platform, bind, ask, check_command_exists, ret.
  repeat match goal with
         | |- context [String.eqb ?a ?b] => destruct (String.eqb a b)
         | |- context [env_which env ?c] => destruct (env_which env c)
         end;
    intros [= <- _ _]; discriminate.
Qed.

(** ** The dependency installer *)

Lemma install_dependencies_no_platform (platform_name package_manager : string)
    (env : Env) (t : Trace) :
  deps !! platform_name = None ->
  install_dependencies platform_name package_manager env t
  = (Ok (false, "Unsupported platform: " +:+ platform_name),
     t ++ [EvCall "install_dependencies"]).
Proof.
  intros H. unfold install_dependencies, bind, emit, ret. rewrite H. reflexivity.
Qed.

Lemma install_dependencies_no_manager (platform_name package_manager : string)
    (env : Env) (t : Trace) :
  is_Some (deps !! platform_name) ->
  commands platform_name !! package_manager = None ->
  install_dependencies platform_name package_manager env t
  = (Ok (false, "Unsupported package manager: " +:+ package_manager),
     t ++ [EvCall "install_dependencies"]).
Proof.
  intros [pkgs Hp] Hc. unfold install_dependencies, bind, emit, ret.
  rewrite Hp, Hc. reflexivity.
Qed.

(** The package lists of the table hold no markup, so the console accepts
    the line that shows them. *)
Lemma deps_line_accepted (env : Env) (platform_name : string) (pkgs : list string) :
  deps !! platform_name = Some pkgs ->
  Markup.accepts env ("[blue]Installing dependencies: " +:+ Text.join " " pkgs +:+
                      "[/blue]") = true.
Proof.
  intros H. apply elem_of_list_to_map_2 in H.
  repeat (apply elem_of_cons in H as [[= -> ->]|H];
          [apply accepts_strictly_nested; reflexivity|]).
  apply elem_of_nil in H. contradiction.
Qed.

(** With both lookups successful, one command is built from the template and
    the package list and handed to the command runner; its outcome decides
    the result.  Before that the package list is printed. *)
Lemma install_dependencies_runs (platform_name package_manager : string)
    (pkgs : list string) (template : string) (env : Env) (t : Trace) :
  deps !! platform_name = Some pkgs ->
  commands platform_name !! package_manager = Some template ->
  let packages := Text.join " " pkgs in
  let cmd := template +:+ " " +:+ packages in
  let t1 := t ++ [EvCall "install_dependencies";
                  EvPrint ("[blue]Installing dependencies: " +:+ packages +:+ "[/blue]")] in
  let p := env_run env t1 cmd None in
  install_dependencies platform_name package_manager env t
  = (match p with
     | Completed returncode _ stderr =>
         if (returncode =? 0)%Z
         then Ok (true, "Dependencies installed successfully")
         else Ok (false, "Failed to install dependencies: " +:+ stderr)
     | SpawnError => Raised "OSError"
     | DecodeError => Raised "UnicodeDecodeError"
     end,
     t1 ++ [EvRun cmd None true p]).
Proof.
  intros Hp Hc packages cmd t1 p.
  unfold install_dependencies, bind, emit, console_print, run_command, ret.
  rewrite Hp, Hc. fold packages. fold cmd.
  unfold packages at 1. rewrite (deps_line_accepted _ _ _ Hp). fold packages.
  replace ((t ++ [EvCall "install_dependencies"]) ++
           [EvPrint ("[blue]Installing dependencies: " +:+ packages +:+ "[/blue]")])
    with t1 by (unfold t1; rewrite <- app_assoc; reflexivity).
  fold p. destruct p as [rc out err| |]; [|reflexivity..].
  destruct (rc =? 0)%Z; reflexivity.
Qed.

(** C2: on Windows the detector names the platform "windows", whatever it
    finds on the search path; "windows" is not a key of the dependency table
    (its Windows key is "msys2"), so [install_dependencies] on the detected
    pair fails with "Unsupported platform: windows"; and no system at all
    makes the detector name the platform "msys2". *)
Theorem windows_is_never_msys2 (env : Env) (t : Trace) :
  Text.lower (env_system env) = "windows" ->
  (exists pm probes,
      detect_platform env t = (Ok ("windows", pm), t ++ probes) /\
      forall t', install_dependencies "windows" pm env t'
                 = (Ok (false, "Unsupported platform: windows"),
                    t' ++ [EvCall "install_dependencies"])) /\
  deps !! "windows" = None /\
  is_Some (deps !! "msys2") /\
  (forall env' t0 t1 p pm,
      detect_platform env' t0 = (Ok (p, pm), t1) -> p <> "msys2").
Proof.
  intros Hw. repeat split.
  - unfold detect_platform, bind, ask, check_command_exists, ret.
    rewrite Hw. simpl.
    destruct (env_which env "pacman"); [| destruct (env_which env "vcpkg")];
      eexists; eexists; (split; [rewrite <- ?app_assoc; reflexivity |]);
      intros t'; apply install_dependencies_no_platform; reflexivity.
  - eexists. reflexivity.
  - intros env' t0 t1 p pm. apply detect_platform_not_msys2.
Qed.

Lemma windows_is_never_msys2_witness :
  (exists pm probes,
      detect_platform Samples.windows_host [] = (Ok ("windows", pm), [] ++ probes) /\
      forall t', install_dependencies "windows" pm Samples.windows_host t'
                 = (Ok (false, "Unsupported platform: windows"),
                    t' ++ [EvCall "install_dependencies"])) /\
  detect_platform Samples.windows_host [] = (Ok ("windows", "msys2"), [EvWhich "pacman" true]).
Proof.
  split.
  - apply (windows_is_never_msys2 Samples.windows_host []). reflexivity.
  - reflexivity.
Defined.

(** C6: the command handed to the command runner is exactly
    [yay -S notcurses] for platform "arch" with manager "pacman", and for
    platform "msys2" with manager "pacman" it is
    [sudo pacman -S --needed --noconfirm] followed by a space and the
    space-joined msys2 package list. *)
Theorem install_command_text (env : Env) (t : Trace) :
  (exists r p,
      install_dependencies "arch" "pacman" env t
      = (r, t ++ [EvCall "install_dependencies";
                  EvPrint "[blue]Installing dependencies: notcurses[/blue]";
                  EvRun "yay -S notcurses" None true p])) /\
  (exists pkgs r p,
      deps !! "msys2" = Some pkgs /\
      install_dependencies "msys2" "pacman" env t
      = (r, t ++ [EvCall "install_dependencies";
                  EvPrint ("[blue]Installing dependencies: " +:+
                           Text.join " " pkgs +:+ "[/blue]");
                  EvRun ("sudo pacman -S --needed --noconfirm" +:+ " " +:+
                         Text.join " " pkgs) None true p])) /\
  (forall pkgs, deps !! "msys2" = Some pkgs ->
      "sudo pacman -S --needed --noconfirm" +:+ " " +:+ Text.join " " pkgs
      = "sudo pacman -S --needed --noconfirm mingw-w64-x86_64-gcc mingw-w64-x86_64-cmake mingw-w64-x86_64-pkg-config mingw-w64-x86_64-ncurses mingw-w64-x86_64-ffmpeg git").
Proof.
  split; [| split].
  - eexists; eexists.
    rewrite (install_dependencies_runs "arch" "pacman" ["notcurses"] "yay -S")
      by reflexivity.
    cbv zeta.
    rewrite <- app_assoc. reflexivity.
  - eexists; eexists; eexists. split; [reflexivity|].
    rewrite (install_dependencies_runs "msys2" "pacman" _
               "sudo pacman -S --needed --noconfirm") by reflexivity.
    cbv zeta.
    rewrite <- app_assoc. reflexivity.
  - intros pkgs [= <-]. reflexivity.
Qed.

(** C7: a platform name that is no key of the dependency table gives
    success=false with "Unsupported platform" in the message, and a platform
    name of the table with a package manager that is no key of the command
    templates gives success=false with "Unsupported package manager" in the
    message; in both cases the function adds nothing to the trace but the
    mark of its own entry, so no command is run. *)
Theorem unsupported_inputs_fail (platform_name package_manager : string)
    (env : Env) (t : Trace) :
  (deps !! platform_name = None ->
     exists message,
       install_dependencies platform_name package_manager env t
       = (Ok (false, message), t ++ [EvCall "install_dependencies"]) /\
       Text.contains "Unsupported platform" message = true) /\
  (is_Some (deps !! platform_name) ->
   commands platform_name !! package_manager = None ->
     exists message,
       install_dependencies platform_name package_manager env t
       = (Ok (false, message), t ++ [EvCall "install_dependencies"]) /\
       Text.contains "Unsupported package manager" message = true).
Proof.
  split.
  - intros H. eexists. split; [apply install_dependencies_no_platform, H|].
    apply (contains_app_l "Unsupported platform" (": " +:+ platform_name)).
  - intros Hp Hc. eexists.
    split; [apply install_dependencies_no_manager; [exact Hp | exact Hc]|].
    apply (contains_app_l "Unsupported package manager" (": " +:+ package_manager)).
Qed.

Lemma unsupported_inputs_fail_witness :
  (exists message,
      install_dependencies "windows" "msys2" Samples.windows_host []
      = (Ok (false, message), [] ++ [EvCall "install_dependencies"]) /\
      Text.contains "Unsupported platform" message = true) /\
  (exists message,
      install_dependencies "ubuntu" "unknown" Samples.arch_host []
      = (Ok (false, message), [] ++ [EvCall "install_dependencies"]) /\
      Text.contains "Unsupported package manager" message = true).
Proof.
  split.
  - apply (unsupported_inputs_fail "windows" "msys2" Samples.windows_host []).
    reflexivity.
  - apply (unsupported_inputs_fail "ubuntu" "unknown" Samples.arch_host []).
    + eexists. reflexivity.
    + reflexivity.
Defined.

(** ** The source builder *)

Arguments Text.of_nat : simpl never.
Arguments os_path_join : simpl never.

(** Splits a run of [build_notcurses] into its possible courses: one per
    outcome of the temporary directory, of each command and of the build
    directory. *)
Ltac build_cases env :=
  unfold build_notcurses, with_temporary_directory, platform_system_lower,
    os_cpu_count_or, os_makedirs, run_command, console_print, emit, bind, ask, ret;
  repeat (match goal with
          | |- context [Markup.accepts env ?s] =>
              rewrite (accepts_strictly_nested env s) by reflexivity
          | |- context [env_mkdtemp env ?t] =>
              destruct (env_mkdtemp env t) as [?dir|]
          | |- context [env_run env ?t ?c ?d] =>
              destruct (env_run env t c d) as [?rc ?out ?err| |]
          | |- context [(?rc =? 0)%Z] => destruct (rc =? 0)%Z eqn:?
          | |- context [env_makedirs env ?t ?p] =>
              destruct (env_makedirs env t p)
          | |- context [String.eqb (Text.lower (env_system env)) ?s] =>
              destruct (String.eqb (Text.lower (env_system env)) s)
          end; cbn [andb negb fst snd]);
  rewrite <- ?app_assoc; cbn [app];
  let Hl := fresh "Hl" in
  intros [= <- Hl%app_inv_head]; subst.

(** Takes a membership in an explicit list apart, dropping the members that
    cannot be the event looked for. *)
Ltac pick_event H :=
  cbn [In] in H;
  repeat (destruct H as [H|H]; [try discriminate H|]);
  try contradiction.

Ltac zero_status :=
  repeat match goal with
         | H : (_ =? 0)%Z = true |- _ => apply Z.eqb_eq in H
         | H : (_ =? 0)%Z = false |- _ => apply Z.eqb_neq in H
         end.

(** C5: when the clone command fails, [build_notcurses] returns
    success=false with the message "Failed to clone notcurses: " followed by
    the captured stderr of the clone, and the clone is the only command of
    the run: checkout, configure, compile, install and refresh are not
    executed (the temporary directory is still removed). *)
Theorem clone_failure_stops_build (env : Env) (t l : Trace)
    (r : Result (bool * string)) (cwd : option string) (rc : Z) (out err : string) :
  build_notcurses env t = (r, t ++ l) ->
  In (EvRun "git clone https://github.com/dankamongmen/notcurses.git"
            cwd true (Completed rc out err)) l ->
  rc <> 0%Z ->
  r = Ok (false, "Failed to clone notcurses: " +:+ err) /\
  Text.contains err ("Failed to clone notcurses: " +:+ err) = true /\
  exists temp_dir,
    cwd = Some temp_dir /\
    l = [EvCall "build_notcurses";
         EvMkdtemp (Some temp_dir);
         EvPrint "[blue]Downloading notcurses source...[/blue]";
         EvRun "git clone https://github.com/dankamongmen/notcurses.git"
               (Some temp_dir) true (Completed rc out err);
         EvCleanup temp_dir].
Proof.
  build_cases env; intros Hin Hrc; pick_event Hin;
    injection Hin as <- <- <- <-; zero_status; try contradiction.
  split; [reflexivity|]. split; [apply contains_app_r|].
  eexists. split; reflexivity.
Qed.

Lemma clone_failure_stops_build_witness :
  fst (build_notcurses Samples.ubuntu_offline [])
  = Ok (false, "Failed to clone notcurses: fatal: unable to access the repository").
Proof.
  destruct (clone_failure_stops_build
              Samples.ubuntu_offline []
              (snd (build_notcurses Samples.ubuntu_offline []))
              (fst (build_notcurses Samples.ubuntu_offline []))
              (Some "/tmp/tmpk3") 128 EmptyString
              "fatal: unable to access the repository") as [H _].
  - reflexivity.
  - vm_compute. do 3 right. left. reflexivity.
  - discriminate.
  - exact H.
Defined.

(** Finds an event in an explicit list. *)
Ltac find_event := cbn [In]; repeat (first [left; reflexivity | right]).

(** The three facts about the step that failed, in a course where the
    failing step is known. *)
Ltac first_failure :=
  split; [reflexivity|]; split; [| split];
  [ intros s' Hlt; destruct s'; cbn [step_index] in Hlt; try lia;
    subst; do 3 eexists; find_event
  | intros s' cwd' p Hlt Hin'; destruct s'; cbn [step_index step_cmd] in Hlt, Hin';
    try lia; pick_event Hin'
  | intros cwd' p Hin'; pick_event Hin' ].

(** Names the step that failed, in a course that ended in a failure. *)
Ltac failing_step_is s :=
  exists s; do 4 eexists; (split; [eassumption|]); split; [find_event | reflexivity].

Ltac failing_step :=
  first [ solve [failing_step_is Clone] | solve [failing_step_is Checkout]
        | solve [failing_step_is Configure] | solve [failing_step_is Compile]
        | solve [failing_step_is Install] ].

(** C4, amended: [build_notcurses] returns success=true only when the
    temporary directory was created and clone, checkout, configure, compile
    and install each ended with status 0; when one of these five commands
    ends with another status it returns success=false with the message of
    that step followed by its captured stderr, the steps before it having
    succeeded and the steps after it not being run; a failure result always
    comes from such a step.  The result of the refresh of the linker cache
    is not looked at: once that command has run, whatever its exit status,
    the result is success. *)
Theorem build_result_follows_checked_steps (env : Env) (t l : Trace)
    (r : Result (bool * string)) :
  build_notcurses env t = (r, t ++ l) ->
  (forall message, r = Ok (true, message) ->
     message = "notcurses 3.0.11 installed successfully" /\
     (exists temp_dir, In (EvMkdtemp (Some temp_dir)) l) /\
     forall s, exists cwd out err,
       In (EvRun (step_cmd env s) cwd true (Completed 0 out err)) l) /\
  (forall s cwd rc out err,
     In (EvRun (step_cmd env s) cwd true (Completed rc out err)) l ->
     rc <> 0%Z ->
     r = Ok (false, step_failure s +:+ err) /\
     (forall s', (step_index s' < step_index s)%nat ->
        exists cwd' out' err',
          In (EvRun (step_cmd env s') cwd' true (Completed 0 out' err')) l) /\
     (forall s' cwd' p, (step_index s < step_index s')%nat ->
        ~ In (EvRun (step_cmd env s') cwd' true p) l) /\
     (forall cwd' p, ~ In (EvRun "sudo ldconfig" cwd' true p) l)) /\
  (forall message, r = Ok (false, message) ->
     exists s cwd rc out err,
       rc <> 0%Z /\
       In (EvRun (step_cmd env s) cwd true (Completed rc out err)) l /\
       message = step_failure s +:+ err) /\
  (forall cwd rc out err,
     In (EvRun "sudo ldconfig" cwd true (Completed rc out err)) l ->
     r = Ok (true, "notcurses 3.0.11 installed successfully")).
Proof.
  build_cases env; zero_status; (split; [| split; [| split]]).
  (* success only after the five steps *)
  all: try match goal with
       | |- forall message, _ = Ok (true, message) -> _ =>
           intros message Hr;
           first [ discriminate Hr
                 | injection Hr as <-; subst;
                   split; [reflexivity|]; split; [eexists; find_event|];
                   intros []; do 3 eexists; find_event ]
       end.
  (* a failure comes from a failing step *)
  all: try match goal with
       | |- forall message, _ = Ok (false, message) -> _ =>
           intros message Hr;
           first [ discriminate Hr | injection Hr as <-; failing_step ]
       end.
  (* the refresh is not looked at *)
  all: try match goal with
       | |- forall cwd rc out err, In _ _ -> _ =>
           intros cwd rc' out' err' Hin; pick_event Hin; reflexivity
       end.
  (* a failing step decides the result *)
  all: intros s cwd rc' out' err' Hin Hrc;
       destruct s; cbn [step_cmd] in Hin; pick_event Hin;
       injection Hin as <- <- <- <-; try contradiction;
       first_failure.
Qed.

Lemma build_result_follows_checked_steps_witness :
  fst (build_notcurses Samples.ubuntu_ldconfig_fails [])
  = Ok (true, "notcurses 3.0.11 installed successfully") /\
  fst (build_notcurses Samples.ubuntu_offline [])
  = Ok (false, "Failed to clone notcurses: fatal: unable to access the repository").
Proof.
  split.
  - destruct (build_result_follows_checked_steps
                Samples.ubuntu_ldconfig_fails []
                (snd (build_notcurses Samples.ubuntu_ldconfig_fails []))
                (fst (build_notcurses Samples.ubuntu_ldconfig_fails [])))
      as (_ & _ & _ & H); [reflexivity|].
    apply (H None 1%Z EmptyString "ldconfig: Can't create temporary cache file").
    vm_compute. do 12 right. left. reflexivity.
  - destruct (build_result_follows_checked_steps
                Samples.ubuntu_offline []
                (snd (build_notcurses Samples.ubuntu_offline []))
                (fst (build_notcurses Samples.ubuntu_offline [])))
      as (_ & H & _); [reflexivity|].
    apply (H Clone (Some "/tmp/tmpk3") 128%Z EmptyString
             "fatal: unable to access the repository").
    + vm_compute. do 3 right. left. reflexivity.
    + discriminate.
Defined.

(** C4 as stated fails: on a Linux host where the five build commands
    succeed and the refresh of the linker cache ends with status 1,
    [build_notcurses] still returns success=true. *)
Lemma refresh_failure_is_ignored :
  In (EvRun "sudo ldconfig" None true
            (Completed 1 EmptyString "ldconfig: Can't create temporary cache file"))
     (snd (build_notcurses Samples.ubuntu_ldconfig_fails [])) /\
  fst (build_notcurses Samples.ubuntu_ldconfig_fails [])
  = Ok (true, "notcurses 3.0.11 installed successfully").
Proof.
  split; [|reflexivity].
  vm_compute. do 12 right. left. reflexivity.
Qed.

(** ** Reasoning about what a computation adds to the trace *)

Lemma bind_ok_inv {A B : Type} (m : M A) (f : A -> M B) (env : Env)
    (t t' : Trace) (b : B) :
  bind m f env t = (Ok b, t') ->
  exists a t1, m env t = (Ok a, t1) /\ f a env t1 = (Ok b, t').
Proof.
  unfold bind. destruct (m env t) as [[a| |] t1]; try discriminate.
  intros H. exists a, t1. split; [reflexivity | exact H].
Qed.

Section Emits.

Variable env : Env.
Variable P : Event -> Prop.

Lemma emits_ret {A : Type} (a : A) : emits env P (ret a).
Proof.
  intros t r t' [= <- <-]. exists []. rewrite app_nil_r. split; constructor.
Qed.

Lemma emits_sys_exit {A : Type} (code : Z) : emits env P (@sys_exit A code).
Proof.
  intros t r t' [= <- <-]. exists []. rewrite app_nil_r. split; constructor.
Qed.

Lemma emits_emit (e : Event) : P e -> emits env P (emit e).
Proof.
  intros He t r t' [= <- <-]. exists [e]. split; [reflexivity|].
  repeat constructor. exact He.
Qed.

Lemma emits_console_print (msg : string) :
  P (EvPrint msg) -> emits env P (console_print msg).
Proof.
  intros He t r t'. unfold console_print.
  destruct (Markup.accepts env msg); intros [= <- <-].
  - exists [EvPrint msg]. split; [reflexivity|]. repeat constructor. exact He.
  - exists []. rewrite app_nil_r. split; constructor.
Qed.

Lemma emits_run_command (cmd : string) (cwd : option string) (check : bool) :
  (forall p, P (EvRun cmd cwd check p)) -> emits env P (run_command cmd cwd check).
Proof.
  intros He t r t'. unfold run_command.
  destruct (env_run env t cmd cwd) as [rc out err| |];
    [destruct (check && negb (rc =? 0)%Z)| |];
    intros [= <- <-]; eexists; (split; [reflexivity|]);
    repeat constructor; apply He.
Qed.

(** Sequencing, when all that is known of the first computation's value is
    [Q]. *)
Lemma emits_bind_with {A B : Type} (Q : A -> Prop) (m : M A) (f : A -> M B) :
  emits env P m ->
  (forall t a t', m env t = (Ok a, t') -> Q a) ->
  (forall a, Q a -> emits env P (f a)) ->
  emits env P (bind m f).
Proof.
  intros Hm HQ Hf t r t'. unfold bind.
  destruct (m env t) as [r1 t1] eqn:E.
  destruct (Hm _ _ _ E) as (l1 & -> & Hl1).
  destruct r1 as [a| |].
  - intros H. destruct (Hf a (HQ _ _ _ E) _ _ _ H) as (l2 & -> & Hl2).
    exists (l1 ++ l2). rewrite app_assoc. split; [reflexivity|].
    apply Forall_app; split; assumption.
  - intros [= <- <-]. exists l1. split; [reflexivity | assumption].
  - intros [= <- <-]. exists l1. split; [reflexivity | assumption].
Qed.

Lemma emits_bind {A B : Type} (m : M A) (f : A -> M B) :
  emits env P m -> (forall a, emits env P (f a)) -> emits env P (bind m f).
Proof.
  intros Hm Hf. apply (emits_bind_with (fun _ => True)); auto.
Qed.

End Emits.

(** Goes through a computation built from the primitives, leaving the facts
    about single events to [tac]. *)
Ltac emits_with tac :=
  repeat match goal with
         | |- emits _ _ (ret _) => apply emits_ret
         | |- emits _ _ (sys_exit _) => apply emits_sys_exit
         | |- emits _ _ (emit _) => apply emits_emit; tac
         | |- emits _ _ (console_print _) => apply emits_console_print; tac
         | |- emits _ _ (run_command _ _ _) => apply emits_run_command; intros; tac
         | |- emits _ _ (bind _ _) => apply emits_bind; [| intros ?]
         | |- emits _ _ (match ?x with _ => _ end) => destruct x
         end.

Lemma install_dependencies_no_build (env : Env) (platform_name package_manager : string) :
  emits env not_build_call (install_dependencies platform_name package_manager).
Proof.
  unfold install_dependencies. emits_with ltac:(unfold not_build_call; discriminate).
Qed.

Lemma install_stage_no_build (env : Env) (skip_deps : bool)
    (platform_name package_manager : string) :
  emits env not_build_call (install_stage skip_deps platform_name package_manager).
Proof.
  unfold install_stage.
  emits_with ltac:(unfold not_build_call; discriminate);
    apply install_dependencies_no_build.
Qed.

Lemma test_stage_no_build (env : Env) (test : bool) :
  emits env not_build_call (test_stage test).
Proof.
  unfold test_stage. emits_with ltac:(unfold not_build_call; discriminate).
Qed.

Lemma build_stage_skipped (skip_build : bool) (platform_name : string) :
  skip_build = true \/ platform_name = "arch" \/ platform_name = "macos" ->
  build_stage skip_build platform_name = ret tt.
Proof.
  unfold build_stage. intros [-> | [-> | ->]]; [reflexivity | |];
    destruct skip_build; reflexivity.
Qed.

Lemma bind_inv {A B : Type} (m : M A) (f : A -> M B) (env : Env)
    (t t' : Trace) (r : Result B) :
  bind m f env t = (r, t') ->
  exists r1 t1, m env t = (r1, t1) /\
    match r1 with
    | Ok a => f a env t1 = (r, t')
    | Exited code => r = Exited code /\ t' = t1
    | Raised exn => r = Raised exn /\ t' = t1
    end.
Proof.
  unfold bind. destruct (m env t) as [[a|code|exn] t1]; intros H;
    eexists; eexists; (split; [reflexivity|]);
    first [exact H | injection H as <- <-; split; reflexivity].
Qed.

Section EmitsMore.

Variable env : Env.
Variable P : Event -> Prop.

Lemma emits_ask : emits env P ask.
Proof.
  intros t r t' [= <- <-]. exists []. rewrite app_nil_r. split; constructor.
Qed.

Lemma emits_os_makedirs (path : string) :
  (forall ok, P (EvMakedirs path ok)) -> emits env P (os_makedirs path).
Proof.
  intros He t r t' [= <- <-]. eexists. split; [reflexivity|].
  repeat constructor. apply He.
Qed.

Lemma emits_with_temporary_directory {A : Type} (body : string -> M A) :
  (forall dir, P (EvMkdtemp dir)) -> (forall dir, P (EvCleanup dir)) ->
  (forall dir, emits env P (body dir)) ->
  emits env P (with_temporary_directory body).
Proof.
  intros Hm Hc Hb t r t'. unfold with_temporary_directory.
  destruct (env_mkdtemp env t) as [dir|].
  - destruct (body dir env (t ++ [EvMkdtemp (Some dir)])) as [r1 t1] eqn:E.
    destruct (Hb _ _ _ _ E) as (l & -> & Hl). intros [= <- <-].
    exists ([EvMkdtemp (Some dir)] ++ l ++ [EvCleanup dir]).
    rewrite <- !app_assoc. split; [reflexivity|].
    apply Forall_app; split; [repeat constructor; apply Hm|].
    apply Forall_app; split; [exact Hl | repeat constructor; apply Hc].
  - intros [= <- <-]. eexists. split; [reflexivity|].
    repeat constructor. apply Hm.
Qed.

End EmitsMore.

(** As [emits_with], for every primitive of the program. *)
Ltac emits_all tac :=
  repeat match goal with
         | |- emits _ _ (ret _) => apply emits_ret
         | |- emits _ _ ask => apply emits_ask
         | |- emits _ _ (sys_exit _) => apply emits_sys_exit
         | |- emits _ _ (emit _) => apply emits_emit; tac
         | |- emits _ _ (console_print _) => apply emits_console_print; tac
         | |- emits _ _ (run_command _ _ _) => apply emits_run_command; intros; tac
         | |- emits _ _ (os_makedirs _) => apply emits_os_makedirs; intros; tac
         | |- emits _ _ (with_temporary_directory _) =>
             apply emits_with_temporary_directory; [intros; tac | intros; tac | intros ?]
         | |- emits _ _ (bind _ _) => apply emits_bind; [| intros ?]
         | |- emits _ _ (match ?x with _ => _ end) => destruct x
         end.

Lemma build_notcurses_emits (env : Env) (P : Event -> Prop) :
  P (EvCall "build_notcurses") ->
  (forall dir, P (EvMkdtemp dir)) -> (forall dir, P (EvCleanup dir)) ->
  (forall path ok, P (EvMakedirs path ok)) ->
  (forall msg, String.prefix "[blue]" msg = true -> P (EvPrint msg)) ->
  (forall cmd cwd p, is_build_command cmd = true -> P (EvRun cmd cwd true p)) ->
  emits env P build_notcurses.
Proof.
  intros Hcall Hmk Hcl Hmd Hpr Hrun.
  unfold build_notcurses, os_cpu_count_or, platform_system_lower.
  emits_all ltac:(first [ assumption | apply Hmk | apply Hcl | apply Hmd
                        | apply Hpr; reflexivity
                        | apply Hrun;
                          first [ reflexivity
                                | unfold is_build_command;
                                  rewrite (prefix_app "make -j"); reflexivity ] ]).
Qed.

Lemma detect_platform_emits (env : Env) (P : Event -> Prop) :
  (forall cmd found, P (EvWhich cmd found)) -> emits env P detect_platform.
Proof.
  intros HP t r t'.
  destruct (detect_platform_stable env) as (pair & probes & Hp & Hs).
  rewrite Hs. intros [= <- <-]. exists probes. split; [reflexivity|].
  eapply Forall_impl; [exact Hp|]. intros e (cmd & found & ->). apply HP.
Qed.

(** ** The orchestrator *)

Lemma detect_platform_unknown (env : Env) (t t' : Trace) (pm : string) :
  detect_platform env t = (Ok ("unknown", pm), t') -> pm = "unknown" /\ t' = t.
Proof.
  unfold detect_platform, bind, ask, check_command_exists, ret.
  repeat match goal with
         | |- context [String.eqb ?a ?b] => destruct (String.eqb a b)
         | |- context [env_which env ?c] => destruct (env_which env c)
         end;
    intros H; try discriminate H; injection H as <- <-; split; reflexivity.
Qed.

(** The line that reports the detected platform is markup the console
    accepts, whatever [detect_platform] returned. *)
Lemma detected_line_accepted (env : Env) (t t1 : Trace)
    (platform_name package_manager : string) :
  detect_platform env t = (Ok (platform_name, package_manager), t1) ->
  Markup.accepts env ("[green]Detected platform: " +:+ platform_name +:+
                      " (" +:+ package_manager +:+ ")[/green]") = true.
Proof.
  unfold detect_platform, bind, ask, check_command_exists, ret.
  repeat match goal with
         | |- context [String.eqb ?a ?b] => destruct (String.eqb a b)
         | |- context [env_which env ?c] => destruct (env_which env c)
         end;
    intros [= <- <- _]; apply accepts_strictly_nested; reflexivity.
Qed.

Lemma main_on_unknown_platform (env : Env) (skip_deps skip_build test : bool)
    (t t1 : Trace) (package_manager : string) :
  detect_platform env (t ++ [banner]) = (Ok ("unknown", package_manager), t1) ->
  main skip_deps skip_build test env t
  = (Exited 1,
     t ++ [banner;
           EvPrint "[green]Detected platform: unknown (unknown)[/green]";
           EvPrint "[red]ERROR: Unsupported platform detected[/red]";
           EvPrint "Supported platforms:";
           EvPrint "  - Linux (Ubuntu, Fedora, Arch)";
           EvPrint "  - macOS (with Homebrew)";
           EvPrint "  - Windows (with MSYS2)"]).
Proof.
  intros H. destruct (detect_platform_unknown _ _ _ _ H) as [-> ->].
  unfold main. unfold bind at 1. unfold emit at 1. unfold bind at 1.
  rewrite H. unfold bind, console_print, sys_exit.
  change ("[green]Detected platform: " +:+ "unknown" +:+ " (" +:+ "unknown" +:+ ")[/green]")
    with "[green]Detected platform: unknown (unknown)[/green]".
  change ("unknown" =? "unknown")%string with true. cbv iota.
  accept_constants env.
  rewrite <- !app_assoc. reflexivity.
Qed.

(** C8: when [detect_platform] names the platform "unknown", [main] prints
    the detected platform and the list of supported platforms and exits with
    code 1, whatever the three flags are; nothing else happens: neither
    [install_dependencies] nor [build_notcurses] is entered and no command
    is run. *)
Theorem unknown_platform_exits_first (env : Env) (skip_deps skip_build test : bool)
    (t t1 : Trace) (package_manager : string) :
  detect_platform env (t ++ [banner]) = (Ok ("unknown", package_manager), t1) ->
  main skip_deps skip_build test env t
  = (Exited 1,
     t ++ [banner;
           EvPrint "[green]Detected platform: unknown (unknown)[/green]";
           EvPrint "[red]ERROR: Unsupported platform detected[/red]";
           EvPrint "Supported platforms:";
           EvPrint "  - Linux (Ubuntu, Fedora, Arch)";
           EvPrint "  - macOS (with Homebrew)";
           EvPrint "  - Windows (with MSYS2)"]) /\
  exit_status (fst (main skip_deps skip_build test env t)) = 1%Z.
Proof.
  intros H. rewrite (main_on_unknown_platform _ _ _ _ _ _ _ H).
  split; reflexivity.
Qed.

Lemma unknown_platform_exits_first_witness :
  exit_status (fst (main false false true Samples.freebsd_host [])) = 1%Z.
Proof.
  apply (unknown_platform_exits_first Samples.freebsd_host false false true
           [] [banner] "unknown").
  reflexivity.
Defined.

(** What [main] does once the platform is detected and known: it runs the
    version query, and either returns at once (notcurses found, no [--test]),
    or goes on with the stages. *)
Lemma main_after_detection (env : Env) (skip_deps skip_build test : bool)
    (t t1 : Trace) (platform_name package_manager : string) :
  detect_platform env (t ++ [banner]) = (Ok (platform_name, package_manager), t1) ->
  platform_name <> "unknown" ->
  let t2 := t1 ++ [EvPrint ("[green]Detected platform: " +:+ platform_name +:+
                            " (" +:+ package_manager +:+ ")[/green]")] in
  main skip_deps skip_build test env t
  = match env_run env t2 version_query None with
    | Completed returncode stdout stderr =>
        let t3 := t2 ++ [EvRun version_query None false
                               (Completed returncode stdout stderr)] in
        if (returncode =? 0)%Z && Text.contains pinned_version stdout then
          let t4 := t3 ++ [EvPrint "[green]SUCCESS: notcurses 3.0.11 already installed[/green]"] in
          if test
          then stages skip_deps skip_build test platform_name package_manager env t4
          else (Ok tt, t4)
        else stages skip_deps skip_build test platform_name package_manager env t3
    | SpawnError =>
        (Raised "OSError", t2 ++ [EvRun version_query None false SpawnError])
    | DecodeError =>
        (Raised "UnicodeDecodeError",
         t2 ++ [EvRun version_query None false DecodeError])
    end.
Proof.
  intros H Hp t2. apply String.eqb_neq in Hp.
  unfold main. unfold bind at 1. unfold emit at 1. unfold bind at 1.
  rewrite H. unfold bind at 1. unfold console_print at 1.
  rewrite (detected_line_accepted _ _ _ _ _ H). fold t2.
  rewrite Hp. unfold bind at 1. unfold ret at 1.
  unfold bind at 1. unfold run_command at 1.
  destruct (env_run env t2 version_query None) as [rc out err| |];
    [|reflexivity|reflexivity].
  cbn [andb]. cbv zeta.
  destruct ((rc =? 0)%Z && Text.contains pinned_version out); [|reflexivity].
  unfold bind at 1. unfold console_print at 1. accept_constants env.
  destruct test; reflexivity.
Qed.

(** C9: the "already installed" fast path is taken whenever the version
    query ends with status 0 and its standard output contains "3.0.11"
    somewhere: [main] then prints that 3.0.11 is already installed and,
    without [--test], returns (exit status 0) before the dependency and
    build stages; with [--test] it goes on with the stages.  The output need
    not be the pinned version itself. *)
Theorem installed_check_accepts_substring (env : Env)
    (skip_deps skip_build test : bool) (t t1 : Trace)
    (platform_name package_manager stdout stderr : string) :
  detect_platform env (t ++ [banner]) = (Ok (platform_name, package_manager), t1) ->
  platform_name <> "unknown" ->
  let t2 := t1 ++ [EvPrint ("[green]Detected platform: " +:+ platform_name +:+
                            " (" +:+ package_manager +:+ ")[/green]")] in
  env_run env t2 version_query None = Completed 0 stdout stderr ->
  Text.contains "3.0.11" stdout = true ->
  let t4 := t2 ++ [EvRun version_query None false (Completed 0 stdout stderr);
                   EvPrint "[green]SUCCESS: notcurses 3.0.11 already installed[/green]"] in
  main skip_deps skip_build test env t
  = (if test
     then stages skip_deps skip_build test platform_name package_manager env t4
     else (Ok tt, t4)) /\
  (test = false -> exit_status (fst (main skip_deps skip_build test env t)) = 0%Z).
Proof.
  intros H Hp t2 Hq Hc t4.
  assert (E : main skip_deps skip_build test env t
              = (if test
                 then stages skip_deps skip_build test platform_name package_manager env t4
                 else (Ok tt, t4))).
  { rewrite (main_after_detection _ _ _ _ _ _ _ _ H Hp). fold t2. rewrite Hq.
    cbv zeta. unfold pinned_version. rewrite Hc. cbn [Z.eqb andb].
    unfold t4. rewrite <- app_assoc. reflexivity. }
  split; [exact E|]. intros ->. rewrite E. reflexivity.
Qed.

Lemma installed_check_accepts_substring_witness :
  Text.contains "3.0.11" ("13.0.112" +:+ Text.nl) = true /\
  main false false false Samples.ubuntu_lookalike_version []
  = (Ok tt,
     [banner; EvWhich "apt-get" true;
      EvPrint "[green]Detected platform: ubuntu (apt)[/green]";
      EvRun version_query None false (Completed 0 ("13.0.112" +:+ Text.nl) EmptyString);
      EvPrint "[green]SUCCESS: notcurses 3.0.11 already installed[/green]"]).
Proof.
  split; [reflexivity|].
  apply (installed_check_accepts_substring
           Samples.ubuntu_lookalike_version false false false
           [] [banner; EvWhich "apt-get" true] "ubuntu" "apt"
           ("13.0.112" +:+ Text.nl) EmptyString);
    [reflexivity | discriminate | reflexivity | reflexivity].
Defined.

(** Lookalikes of the pinned version pass the check of the fast path. *)
Lemma pinned_version_lookalikes :
  Text.contains pinned_version "3.0.11-rc1" = true /\
  Text.contains pinned_version "13.0.112" = true /\
  Text.contains pinned_version "3.0.1" = false.
Proof. repeat split. Qed.









Lemma stages_no_build (env : Env) (skip_deps skip_build test : bool)
    (platform_name package_manager : string) :
  skip_build = true \/ platform_name = "arch" \/ platform_name = "macos" ->
  emits env not_build_call
        (stages skip_deps skip_build test platform_name package_manager).
Proof.
  intros H. unfold stages. rewrite (build_stage_skipped _ _ H).
  emits_with ltac:(unfold not_build_call; discriminate);
    [apply install_stage_no_build | apply test_stage_no_build].
Qed.

(** With [--skip-build], or on the platforms "arch" and "macos", no run of
    [main] enters [build_notcurses]. *)
Lemma main_no_build (env : Env) (skip_deps skip_build test : bool)
    (platform_name package_manager : string) :
  (forall t, exists t', detect_platform env t = (Ok (platform_name, package_manager), t')) ->
  skip_build = true \/ platform_name = "arch" \/ platform_name = "macos" ->
  emits env not_build_call (main skip_deps skip_build test).
Proof.
  intros Hd H. unfold main.
  apply emits_bind; [apply emits_emit; discriminate | intros _].
  apply (emits_bind_with _ _ (fun a => a = (platform_name, package_manager))).
  - destruct (detect_platform_stable env) as (pair & probes & Hp & Hs).
    intros t r t'. rewrite Hs. intros [= <- <-]. exists probes.
    split; [reflexivity|].
    eapply Forall_impl; [exact Hp|].
    intros e (cmd & found & ->). discriminate.
  - intros t a t' Ha. destruct (Hd t) as [t'' Ht]. congruence.
  - intros a ->.
    emits_with ltac:(unfold not_build_call; discriminate);
      apply stages_no_build, H.
Qed.

(** C10: a run of [main] enters [build_notcurses] only when [--skip-build]
    is not given and the detected platform is neither "arch" nor "macos"; on
    "arch" and "macos" the source build is never entered, also without
    [--skip-build]. *)
Theorem build_only_off_arch_and_macos (env : Env)
    (skip_deps skip_build test : bool) (t t1 l : Trace) (r : Result unit)
    (platform_name package_manager : string) :
  detect_platform env (t ++ [banner]) = (Ok (platform_name, package_manager), t1) ->
  main skip_deps skip_build test env t = (r, t ++ l) ->
  In (EvCall "build_notcurses") l ->
  skip_build = false /\ platform_name <> "arch" /\ platform_name <> "macos".
Proof.
  intros Hd Hm Hin.
  assert (Hs : forall t0, exists t',
               detect_platform env t0 = (Ok (platform_name, package_manager), t')).
  { destruct (detect_platform_stable env) as (pair & probes & _ & Hs).
    rewrite Hs in Hd. injection Hd as -> _.
    intros t0. eexists. apply Hs. }
  assert (Hno : skip_build = true \/ platform_name = "arch" \/ platform_name = "macos"
                -> False).
  { intros H.
    destruct (main_no_build env skip_deps skip_build test _ _ Hs H _ _ _ Hm)
      as (l' & El & Hl).
    apply app_inv_head in El as <-.
    rewrite List.Forall_forall in Hl. apply (Hl _ Hin). reflexivity. }
  repeat split.
  - destruct skip_build; [exfalso; apply Hno; left|]; reflexivity.
  - intros ->. apply Hno. right; left; reflexivity.
  - intros ->. apply Hno. right; right; reflexivity.
Qed.

Lemma build_only_off_arch_and_macos_witness :
  In (EvCall "build_notcurses")
     (snd (main false false false Samples.ubuntu_ldconfig_fails [])) /\
  (false = false /\ "ubuntu" <> "arch" /\ "ubuntu" <> "macos").
Proof.
  split; [vm_compute; do 11 right; left; reflexivity|].
  apply (build_only_off_arch_and_macos
           Samples.ubuntu_ldconfig_fails false false false
           [] [banner; EvWhich "apt-get" true]
           (snd (main false false false Samples.ubuntu_ldconfig_fails []))
           (fst (main false false false Samples.ubuntu_ldconfig_fails []))
           "ubuntu" "apt").
  - reflexivity.
  - reflexivity.
  - vm_compute. do 11 right. left. reflexivity.
Defined.

(** On an Arch host with neither flag given, the dependency stage runs and
    the source build does not. *)
Lemma arch_host_run :
  main false false false Samples.arch_host []
  = (Exited 1,
     [banner;
      EvWhich "apt-get" false; EvWhich "dnf" false; EvWhich "pacman" true;
      EvPrint "[green]Detected platform: arch (pacman)[/green]";
      EvRun version_query None false
            (Completed 1 EmptyString "Package notcurses was not found");
      EvProgressAdd "Installing dependencies...";
      EvCall "install_dependencies";
      EvPrint "[blue]Installing dependencies: notcurses[/blue]";
      EvRun "yay -S notcurses" None true
            (Completed 1 EmptyString "Package notcurses was not found");
      EvProgressRemove;
      EvPrint "[red]ERROR: Failed to install dependencies: Package notcurses was not found[/red]"]).
Proof. reflexivity. Qed.

(** * Further properties *)

(** ** The command runner *)

(** X1: what [run_command] does is decided by how the command ends.  For a
    command that runs to completion and whose output is text, it neither
    raises nor exits: it returns the captured output unchanged with a
    success flag that is true exactly when the exit status is 0, and the
    [check] argument has no influence on what is returned.  When the command
    cannot be started it raises [OSError], and when its output cannot be
    decoded it raises [UnicodeDecodeError], whatever [check] is. *)
Theorem run_command_reports_status (cmd : string) (cwd : option string)
    (check : bool) (env : Env) (t : Trace) :
  match env_run env t cmd cwd with
  | Completed rc out err =>
      (exists success,
          run_command cmd cwd check env t
          = (Ok (success, out, err),
             t ++ [EvRun cmd cwd check (Completed rc out err)]) /\
          (success = true <-> rc = 0%Z)) /\
      fst (run_command cmd cwd check env t)
      = fst (run_command cmd cwd (negb check) env t)
  | SpawnError =>
      run_command cmd cwd check env t
      = (Raised "OSError", t ++ [EvRun cmd cwd check SpawnError])
  | DecodeError =>
      run_command cmd cwd check env t
      = (Raised "UnicodeDecodeError", t ++ [EvRun cmd cwd check DecodeError])
  end.
Proof.
  unfold run_command.
  destruct (env_run env t cmd cwd) as [rc out err| |]; [|reflexivity|reflexivity].
  split.
  - exists (rc =? 0)%Z. split; [| apply Z.eqb_eq].
    destruct check, (rc =? 0)%Z; reflexivity.
  - destruct check, (rc =? 0)%Z; reflexivity.
Qed.

Lemma run_command_reports_status_witness :
  run_command "git clone" (Some "/tmp") true Samples.ubuntu_offline []
  = (Ok (false, EmptyString, "fatal: unable to access the repository"),
     [EvRun "git clone" (Some "/tmp") true
            (Completed 128 EmptyString "fatal: unable to access the repository")]) /\
  run_command version_query None false Samples.ubuntu_latin1_output []
  = (Raised "UnicodeDecodeError", [EvRun version_query None false DecodeError]).
Proof.
  split.
  - destruct (run_command_reports_status "git clone" (Some "/tmp") true
                Samples.ubuntu_offline []) as [(success & E & Hs) _].
    rewrite E. destruct success; [|reflexivity].
    destruct Hs as [Hs _]. discriminate (Hs eq_refl).
  - exact (run_command_reports_status version_query None false
             Samples.ubuntu_latin1_output []).
Defined.

(** ** The platform detector *)

(** X2: [detect_platform] always answers, with one of nine pairs; it probes
    at most three executables and does nothing else; the manager is
    "unknown" only for the platform names "linux", "windows" and "unknown",
    and the platform "unknown" always comes with the manager "unknown". *)
Theorem detect_platform_range (env : Env) (t : Trace) :
  exists platform_name package_manager probes,
    detect_platform env t = (Ok (platform_name, package_manager), t ++ probes) /\
    In (platform_name, package_manager)
       [("ubuntu", "apt"); ("fedora", "dnf"); ("arch", "pacman");
        ("linux", "unknown"); ("macos", "brew"); ("windows", "msys2");
        ("windows", "vcpkg"); ("windows", "unknown"); ("unknown", "unknown")] /\
    (length probes <= 3)%nat /\
    Forall (fun e => exists cmd, e = EvWhich cmd (env_which env cmd)) probes /\
    (package_manager = "unknown" ->
       In platform_name ["linux"; "windows"; "unknown"]) /\
    (platform_name = "unknown" -> package_manager = "unknown").
Proof.
  unfold detect_platform, bind, ask, check_command_exists, ret.
  repeat match goal with
         | |- context [String.eqb ?a ?b] => destruct (String.eqb a b)
         | |- context [if env_which env ?c then _ else _] =>
             destruct (env_which env c) eqn:?
         end;
    do 3 eexists;
    (split; [rewrite <- ?app_assoc;
             first [reflexivity | rewrite app_nil_r; reflexivity]|]);
    (split; [cbn [In]; tauto|]);
    cbn [app length];
    (split; [lia|]);
    (split; [repeat constructor;
             match goal with
             | |- exists cmd, EvWhich ?c ?b = _ =>
                 exists c; apply f_equal; symmetry; assumption
             end|]);
    split; intros; first [discriminate | cbn [In]; tauto | reflexivity].
Qed.

(** ** The dependency installer *)

(** X3: on a pair returned by [detect_platform], [install_dependencies]
    either finds both the package list and the command template (platforms
    ubuntu, fedora, arch and macos) or stops with "Unsupported platform"
    (platforms linux, windows and unknown); it never answers "Unsupported
    package manager" on such a pair. *)
Theorem detected_pair_in_installer (env : Env) (t t1 t2 : Trace)
    (platform_name package_manager : string) :
  detect_platform env t = (Ok (platform_name, package_manager), t1) ->
  ((In platform_name ["ubuntu"; "fedora"; "arch"; "macos"] /\
    exists pkgs template,
      deps !! platform_name = Some pkgs /\
      commands platform_name !! package_manager = Some template) \/
   (In platform_name ["linux"; "windows"; "unknown"] /\
    install_dependencies platform_name package_manager env t2
    = (Ok (false, "Unsupported platform: " +:+ platform_name),
       t2 ++ [EvCall "install_dependencies"]))) /\
  (forall message t3,
     install_dependencies platform_name package_manager env t2
     = (Ok (false, message), t3) ->
     String.prefix "Unsupported package manager" message = false).
Proof.
  unfold detect_platform, bind, ask, check_command_exists, ret.
  repeat match goal with
         | |- context [String.eqb ?a ?b] => destruct (String.eqb a b)
         | |- context [if env_which env ?c then _ else _] =>
             destruct (env_which env c)
         end;
    intros [= <- <- _];
    first
      [ (* a platform of the table, with its own manager *)
        split;
        [ left; split; [cbn [In]; tauto|]; do 2 eexists; split; reflexivity
        | intros message t3;
          erewrite install_dependencies_runs by reflexivity; cbv zeta;
          destruct (env_run env _ _ None) as [rc out err| |];
          [|discriminate|discriminate];
          destruct (rc =? 0)%Z; intros [= <- _]; reflexivity ]
      | (* a platform that is not in the table *)
        split;
        [ right; split; [cbn [In]; tauto|];
          apply install_dependencies_no_platform; reflexivity
        | intros message t3;
          rewrite install_dependencies_no_platform by reflexivity;
          intros [= <- _]; reflexivity ] ].
Qed.

Lemma detected_pair_in_installer_witness :
  (In "windows" ["ubuntu"; "fedora"; "arch"; "macos"] /\
    exists pkgs template,
      deps !! "windows" = Some pkgs /\
      commands "windows" !! "msys2" = Some template) \/
   (In "windows" ["linux"; "windows"; "unknown"] /\
    install_dependencies "windows" "msys2" Samples.windows_host []
    = (Ok (false, "Unsupported platform: " +:+ "windows"),
       [] ++ [EvCall "install_dependencies"])).
Proof.
  apply (detected_pair_in_installer Samples.windows_host [] [EvWhich "pacman" true] []
           "windows" "msys2").
  reflexivity.
Defined.

(** X4: [install_dependencies] runs at most one shell command.  It returns
    success=true only after that command ended with status 0, the message
    then being "Dependencies installed successfully"; when the command ends
    with another status the result is success=false with "Failed to install
    dependencies: " followed by the command's stderr; the function never
    exits the program; and it raises only when the command could not be
    started ([OSError]) or its output could not be decoded
    ([UnicodeDecodeError]) - the line it prints is always accepted by the
    console. *)
Theorem install_dependencies_outcome (platform_name package_manager : string)
    (env : Env) (t l : Trace) (r : Result (bool * string)) :
  install_dependencies platform_name package_manager env t = (r, t ++ l) ->
  (length (omap command_of l) <= 1)%nat /\
  (forall message, r = Ok (true, message) ->
     message = "Dependencies installed successfully" /\
     exists cmd out err, In (EvRun cmd None true (Completed 0 out err)) l) /\
  (forall cmd cwd check rc out err,
     In (EvRun cmd cwd check (Completed rc out err)) l -> rc <> 0%Z ->
     r = Ok (false, "Failed to install dependencies: " +:+ err)) /\
  (forall code, r <> Exited code) /\
  (forall exn, r = Raised exn ->
     exists cmd,
       (exn = "OSError" /\ In (EvRun cmd None true SpawnError) l) \/
       (exn = "UnicodeDecodeError" /\ In (EvRun cmd None true DecodeError) l)).
Proof.
  assert (Hfacts : forall r0 l0,
    (r0 = Ok (false, "Unsupported platform: " +:+ platform_name) \/
     r0 = Ok (false, "Unsupported package manager: " +:+ package_manager)) ->
    l0 = [EvCall "install_dependencies"] ->
    (length (omap command_of l0) <= 1)%nat /\
    (forall message, r0 = Ok (true, message) ->
       message = "Dependencies installed successfully" /\
       exists cmd out err, In (EvRun cmd None true (Completed 0 out err)) l0) /\
    (forall cmd cwd check rc out err,
       In (EvRun cmd cwd check (Completed rc out err)) l0 -> rc <> 0%Z ->
       r0 = Ok (false, "Failed to install dependencies: " +:+ err)) /\
    (forall code, r0 <> Exited code) /\
    (forall exn, r0 = Raised exn ->
       exists cmd,
         (exn = "OSError" /\ In (EvRun cmd None true SpawnError) l0) \/
         (exn = "UnicodeDecodeError" /\ In (EvRun cmd None true DecodeError) l0))).
  { intros r0 l0 Hr ->. split; [cbn; lia|]. split; [| split; [| split]].
    - intros message ->. destruct Hr; discriminate.
    - intros cmd cwd check rc out err Hin. pick_event Hin.
    - intros code ->. destruct Hr; discriminate.
    - intros exn ->. destruct Hr; discriminate. }
  destruct (deps !! platform_name) as [pkgs|] eqn:Hp;
    [destruct (commands platform_name !! package_manager) as [template|] eqn:Hc|].
  - rewrite (install_dependencies_runs _ _ _ _ _ _ Hp Hc). cbv zeta.
    rewrite <- app_assoc. cbn [app].
    destruct (env_run env _ _ None) as [rc out err| |];
      [destruct (rc =? 0)%Z eqn:Hz| |];
      intros [= <- <-%app_inv_head]; zero_status; subst;
      (split; [cbn; lia|]); (split; [| split; [| split]]).
    all: try solve [intros message Hr; discriminate Hr].
    all: try solve [intros code Hr; discriminate Hr].
    all: try solve [intros cmd' cwd' check' rc' out' err' Hin Hrc; pick_event Hin;
                    injection Hin as <- <- <- <- <- <-;
                    first [congruence | reflexivity]].
    + intros message [= <-]. split; [reflexivity|]. do 3 eexists. find_event.
    + intros exn [= <-]. eexists. left. split; [reflexivity | find_event].
    + intros exn [= <-]. eexists. right. split; [reflexivity | find_event].
  - rewrite install_dependencies_no_manager by (try eexists; eassumption).
    intros [= <- <-%app_inv_head]. apply Hfacts; [right|]; reflexivity.
  - rewrite install_dependencies_no_platform by assumption.
    intros [= <- <-%app_inv_head]. apply Hfacts; [left|]; reflexivity.
Qed.

Lemma install_dependencies_outcome_witness :
  fst (install_dependencies "arch" "pacman" Samples.arch_host [])
  = Ok (false, "Failed to install dependencies: Package notcurses was not found").
Proof.
  destruct (install_dependencies_outcome
              "arch" "pacman" Samples.arch_host []
              (snd (install_dependencies "arch" "pacman" Samples.arch_host []))
              (fst (install_dependencies "arch" "pacman" Samples.arch_host [])))
    as (_ & _ & H & _); [reflexivity|].
  apply (H "yay -S notcurses" None true 1%Z EmptyString "Package notcurses was not found").
  - vm_compute. do 2 right. left. reflexivity.
  - discriminate.
Defined.

(** ** The source builder, continued *)

(** As [build_cases], keeping what is known of the system name. *)
Ltac build_courses env :=
  unfold build_notcurses, with_temporary_directory, platform_system_lower,
    os_cpu_count_or, os_makedirs, run_command, console_print, emit, bind, ask, ret;
  repeat (match goal with
          | |- context [Markup.accepts env ?s] =>
              rewrite (accepts_strictly_nested env s) by reflexivity
          | |- context [env_mkdtemp env ?t] =>
              destruct (env_mkdtemp env t) as [?dir|]
          | |- context [env_run env ?t ?c ?d] =>
              destruct (env_run env t c d) as [?rc ?out ?err| |]
          | |- context [(?rc =? 0)%Z] => destruct (rc =? 0)%Z eqn:?
          | |- context [env_makedirs env ?t ?p] =>
              destruct (env_makedirs env t p)
          | |- context [String.eqb (Text.lower (env_system env)) ?s] =>
              destruct (String.eqb_spec (Text.lower (env_system env)) s)
          end; cbn [andb negb fst snd]);
  rewrite <- ?app_assoc; cbn [app];
  let Hl := fresh "Hl" in
  intros [= <- Hl%app_inv_head]; subst.

(** Splits an explicit list into its last element and what is before. *)
Ltac split_last :=
  match goal with
  | |- exists l0, ?l = l0 ++ _ /\ _ =>
      exists (removelast l); cbn [removelast]; split; [reflexivity|]
  end.

(** X5: once the temporary directory exists, its removal is the last thing
    [build_notcurses] does, whether it ends in success, in failure or in an
    exception, and it happens once; when the directory cannot be created the
    function raises at once, without running any command. *)
Theorem temporary_directory_is_removed (env : Env) (t l : Trace)
    (r : Result (bool * string)) :
  build_notcurses env t = (r, t ++ l) ->
  (forall dir, In (EvMkdtemp (Some dir)) l ->
     exists l0, l = l0 ++ [EvCleanup dir] /\ forall d, ~ In (EvCleanup d) l0) /\
  (In (EvMkdtemp None) l ->
     r = Raised "OSError" /\ l = [EvCall "build_notcurses"; EvMkdtemp None]).
Proof.
  build_cases env; split.
  all: match goal with
       | |- In _ _ -> _ => intros Hin; pick_event Hin; split; reflexivity
       | |- forall dir, _ =>
           intros dir' Hin; pick_event Hin; injection Hin as <-;
           split_last; intros d Hin'; pick_event Hin'
       end.
Qed.

Lemma temporary_directory_is_removed_witness :
  exists l0,
    snd (build_notcurses Samples.ubuntu_offline []) = l0 ++ [EvCleanup "/tmp/tmpk3"] /\
    forall d, ~ In (EvCleanup d) l0.
Proof.
  destruct (temporary_directory_is_removed
              Samples.ubuntu_offline []
              (snd (build_notcurses Samples.ubuntu_offline []))
              (fst (build_notcurses Samples.ubuntu_offline [])))
    as [H _]; [reflexivity|].
  apply (H "/tmp/tmpk3"). vm_compute. right. left. reflexivity.
Defined.

(** X6: the refresh of the linker cache is run only on Linux, without a
    working directory, and only after all five build commands succeeded; on
    Linux a successful build always includes it; and a refresh that cannot
    be started at all makes [build_notcurses] raise. *)
Theorem refresh_only_on_linux (env : Env) (t l : Trace)
    (r : Result (bool * string)) :
  build_notcurses env t = (r, t ++ l) ->
  (forall cwd check p, In (EvRun "sudo ldconfig" cwd check p) l ->
     Text.lower (env_system env) = "linux" /\ cwd = None /\ check = true /\
     (p = SpawnError -> r = Raised "OSError") /\
     forall s, exists cwd' out err,
       In (EvRun (step_cmd env s) cwd' true (Completed 0 out err)) l) /\
  (forall message, r = Ok (true, message) ->
     Text.lower (env_system env) = "linux" ->
     exists p, In (EvRun "sudo ldconfig" None true p) l).
Proof.
  build_courses env; zero_status; split.
  all: match goal with
       | |- forall message, _ = Ok _ -> _ =>
           intros message Hr Hs;
           first [discriminate Hr | contradiction | eexists; find_event]
       | |- forall cwd check p, _ =>
           intros cwd' check' p' Hin; pick_event Hin; injection Hin as <- <- <-;
           subst; repeat split; try assumption; try discriminate;
           intros []; do 3 eexists; find_event
       end.
Qed.

Lemma refresh_only_on_linux_witness :
  exists p,
    In (EvRun "sudo ldconfig" None true p)
       (snd (build_notcurses Samples.ubuntu_ldconfig_fails [])).
Proof.
  destruct (refresh_only_on_linux
              Samples.ubuntu_ldconfig_fails []
              (snd (build_notcurses Samples.ubuntu_ldconfig_fails []))
              (fst (build_notcurses Samples.ubuntu_ldconfig_fails [])))
    as [_ H]; [reflexivity|].
  apply (H "notcurses 3.0.11 installed successfully"); reflexivity.
Defined.

(** X7: when the build directory cannot be created, [build_notcurses] raises;
    only the clone and the checkout have run, and the temporary directory is
    still removed at the end. *)
Theorem build_directory_failure_raises (env : Env) (t l : Trace)
    (r : Result (bool * string)) (path : string) :
  build_notcurses env t = (r, t ++ l) ->
  In (EvMakedirs path false) l ->
  r = Raised "OSError" /\
  (forall s cwd p, In (EvRun (step_cmd env s) cwd true p) l ->
     s = Clone \/ s = Checkout) /\
  (forall cwd check p, ~ In (EvRun "sudo ldconfig" cwd check p) l) /\
  exists dir, last l = Some (EvCleanup dir).
Proof.
  build_cases env; intros Hin; pick_event Hin;
    (split; [reflexivity|]; split; [| split];
     [ intros s cwd p Hin'; destruct s; cbn [step_cmd] in Hin'; pick_event Hin'; tauto
     | intros cwd check p Hin'; pick_event Hin'
     | eexists; reflexivity ]).
Qed.

(** X8: the compile command is [make -j] followed by a positive number of
    jobs: the number of processors when it is known and not 0, and 4
    otherwise; no other command of the build starts with [make]. *)
Theorem compile_parallelism_is_positive (env : Env) (t l : Trace)
    (r : Result (bool * string)) (cmd : string) (cwd : option string)
    (check : bool) (p : Proc) :
  build_notcurses env t = (r, t ++ l) ->
  In (EvRun cmd cwd check p) l ->
  String.prefix "make" cmd = true ->
  exists n,
    cmd = "make -j" +:+ Text.of_nat n /\
    (1 <= n)%nat /\
    (env_cpu_count env = Some n \/
     (n = 4%nat /\ (env_cpu_count env = None \/ env_cpu_count env = Some 0%nat))).
Proof.
  build_cases env; intros Hin Hm; pick_event Hin;
    injection Hin as <- <- <- <-; try discriminate Hm;
    destruct (env_cpu_count env) as [[|n]|]; cbn [Nat.eqb];
    eexists; (split; [reflexivity|]); (split; [lia|]); tauto.
Qed.

(** X9: every command of the build runs in its own place: the clone in the
    temporary directory, the checkout in its [notcurses] subdirectory, and
    configure, compile and install in the [build] directory below it, which
    has been created before they run. *)
Theorem build_commands_working_directories (env : Env) (t l : Trace)
    (r : Result (bool * string)) (s : Step) (cwd : option string) (p : Proc) :
  build_notcurses env t = (r, t ++ l) ->
  In (EvRun (step_cmd env s) cwd true p) l ->
  exists temp_dir,
    In (EvMkdtemp (Some temp_dir)) l /\
    let notcurses_dir := os_path_join temp_dir "notcurses" in
    let build_dir := os_path_join notcurses_dir "build" in
    cwd = Some match s with
               | Clone => temp_dir
               | Checkout => notcurses_dir
               | Configure | Compile | Install => build_dir
               end /\
    (s <> Clone -> s <> Checkout -> In (EvMakedirs build_dir true) l).
Proof.
  build_cases env; intros Hin; destruct s; cbn [step_cmd] in Hin; pick_event Hin;
    injection Hin as <- <-; eexists; (split; [find_event|]); cbv zeta;
    (split; [reflexivity | intros H1 H2; first [congruence | find_event]]).
Qed.

Lemma build_directory_failure_raises_witness :
  fst (build_notcurses Samples.ubuntu_no_build_dir []) = Raised "OSError" /\
  last (snd (build_notcurses Samples.ubuntu_no_build_dir []))
  = Some (EvCleanup "/tmp/tmpk3").
Proof.
  destruct (build_directory_failure_raises
              Samples.ubuntu_no_build_dir []
              (snd (build_notcurses Samples.ubuntu_no_build_dir []))
              (fst (build_notcurses Samples.ubuntu_no_build_dir []))
              "/tmp/tmpk3/notcurses/build")
    as (H & _ & _ & _).
  - reflexivity.
  - vm_compute. repeat (first [left; reflexivity | right]).
  - split; [exact H | reflexivity].
Defined.

Lemma compile_parallelism_is_positive_witness :
  exists n,
    "make -j4" = "make -j" +:+ Text.of_nat n /\
    (1 <= n)%nat /\
    (env_cpu_count Samples.ubuntu_ldconfig_fails = Some n \/
     (n = 4%nat /\ (env_cpu_count Samples.ubuntu_ldconfig_fails = None \/
                    env_cpu_count Samples.ubuntu_ldconfig_fails = Some 0%nat))).
Proof.
  apply (compile_parallelism_is_positive
           Samples.ubuntu_ldconfig_fails []
           (snd (build_notcurses Samples.ubuntu_ldconfig_fails []))
           (fst (build_notcurses Samples.ubuntu_ldconfig_fails []))
           "make -j4" (Some "/tmp/tmpk3/notcurses/build") true
           (Completed 0 EmptyString EmptyString)).
  - reflexivity.
  - vm_compute. repeat (first [left; reflexivity | right]).
  - reflexivity.
Defined.

Lemma build_commands_working_directories_witness :
  exists temp_dir,
    In (EvMkdtemp (Some temp_dir))
       (snd (build_notcurses Samples.ubuntu_ldconfig_fails [])) /\
    Some "/tmp/tmpk3/notcurses/build"
    = Some (os_path_join (os_path_join temp_dir "notcurses") "build").
Proof.
  destruct (build_commands_working_directories
              Samples.ubuntu_ldconfig_fails []
              (snd (build_notcurses Samples.ubuntu_ldconfig_fails []))
              (fst (build_notcurses Samples.ubuntu_ldconfig_fails []))
              Install (Some "/tmp/tmpk3/notcurses/build")
              (Completed 0 EmptyString EmptyString))
    as (temp_dir & Hin & Hcwd & _).
  - reflexivity.
  - vm_compute. repeat (first [left; reflexivity | right]).
  - exists temp_dir. split; [exact Hin | exact Hcwd].
Defined.

(** ** Reasoning about traces and results, continued *)

(** X12: with both [--skip-deps] and [--skip-build], [main] changes nothing
    on the host: apart from console output and probes of the search path,
    the only thing it does is run the version query; neither stage function
    is entered and no temporary directory is made. *)
Theorem skipping_both_stages_is_read_only (env : Env) (test : bool)
    (t l : Trace) (r : Result unit) :
  main true true test env t = (r, t ++ l) ->
  Forall (fun e => is_read_only e = true) l.
Proof.
  intros H.
  assert (E : emits env (fun e => is_read_only e = true) (main true true test)).
  { unfold main, stages, install_stage, build_stage, test_stage.
    cbn [negb andb].
    emits_all ltac:(reflexivity); apply detect_platform_emits; reflexivity. }
  destruct (E _ _ _ H) as (l' & ->%app_inv_head & Hl). exact Hl.
Qed.

Lemma skipping_both_stages_is_read_only_witness :
  Forall (fun e => is_read_only e = true)
         (snd (main true true true Samples.ubuntu_old_version [])).
Proof.
  apply (skipping_both_stages_is_read_only
           Samples.ubuntu_old_version true []
           (snd (main true true true Samples.ubuntu_old_version []))
           (fst (main true true true Samples.ubuntu_old_version []))).
  reflexivity.
Defined.

Section Disciplined.

Variable env : Env.

Lemma disciplined_ret {A : Type} (a : A) : disciplined env (ret a).
Proof. intros t r t' [= <- <-]. exists []. rewrite app_nil_r. split; reflexivity. Qed.

Lemma disciplined_ask : disciplined env ask.
Proof. intros t r t' [= <- <-]. exists []. rewrite app_nil_r. split; reflexivity. Qed.

Lemma disciplined_emit (e : Event) :
  is_error_line e = false -> disciplined env (emit e).
Proof.
  intros He t r t' [= <- <-]. exists [e]. split; [reflexivity|].
  cbn. rewrite He. reflexivity.
Qed.

Lemma disciplined_console_print (msg : string) :
  is_error_line (EvPrint msg) = false -> disciplined env (console_print msg).
Proof.
  intros He t r t'. unfold console_print.
  destruct (Markup.accepts env msg); intros [= <- <-].
  - exists [EvPrint msg]. split; [reflexivity|].
    cbn [existsb orb]. rewrite He. reflexivity.
  - exists []. rewrite app_nil_r. split; reflexivity.
Qed.

Lemma disciplined_run_command (cmd : string) (cwd : option string) (check : bool) :
  disciplined env (run_command cmd cwd check).
Proof.
  intros t r t'. unfold run_command.
  destruct (env_run env t cmd cwd) as [rc out err| |];
    [destruct (check && negb (rc =? 0)%Z)| |];
    intros [= <- <-]; eexists; split; reflexivity.
Qed.

Lemma disciplined_os_makedirs (path : string) : disciplined env (os_makedirs path).
Proof.
  intros t r t'. unfold os_makedirs. destruct (env_makedirs env t path);
    intros [= <- <-]; eexists; split; reflexivity.
Qed.

Lemma disciplined_bind {A B : Type} (m : M A) (f : A -> M B) :
  disciplined env m -> (forall a, disciplined env (f a)) ->
  disciplined env (bind m f).
Proof.
  intros Hm Hf t r t' H.
  apply bind_inv in H as (r1 & t1 & Hr1 & H).
  destruct (Hm _ _ _ Hr1) as (l1 & -> & H1).
  destruct r1 as [a|code|exn].
  - destruct (Hf a _ _ _ H) as (l2 & -> & H2).
    exists (l1 ++ l2). rewrite app_assoc. split; [reflexivity|].
    rewrite existsb_app, H1. exact H2.
  - destruct H as [-> ->]. exists l1. split; [reflexivity | exact H1].
  - destruct H as [-> ->]. exists l1. split; [reflexivity | exact H1].
Qed.

Lemma disciplined_with_temporary_directory {A : Type} (body : string -> M A) :
  (forall dir, disciplined env (body dir)) ->
  disciplined env (with_temporary_directory body).
Proof.
  intros Hb t r t'. unfold with_temporary_directory.
  destruct (env_mkdtemp env t) as [dir|].
  - destruct (body dir env (t ++ [EvMkdtemp (Some dir)])) as [r1 t1] eqn:E.
    destruct (Hb _ _ _ _ E) as (l & -> & Hl). intros [= <- <-].
    exists ([EvMkdtemp (Some dir)] ++ l ++ [EvCleanup dir]).
    rewrite <- !app_assoc. split; [reflexivity|].
    rewrite !existsb_app. cbn [existsb is_error_line orb]. rewrite orb_false_r.
    exact Hl.
  - intros [= <- <-]. eexists. split; reflexivity.
Qed.

Lemma disciplined_check_command_exists (cmd : string) :
  disciplined env (check_command_exists cmd).
Proof. intros t r t' [= <- <-]. eexists. split; reflexivity. Qed.

Lemma dying_sys_exit {A : Type} : dying env (@sys_exit A 1).
Proof. intros t. exists []. rewrite app_nil_r. reflexivity. Qed.

Lemma dying_print {A : Type} (msg : string) (k : M A) :
  Markup.accepts env msg = true ->
  dying env k -> dying env (bind (console_print msg) (fun _ => k)).
Proof.
  intros Hm Hk t. unfold bind, console_print. rewrite Hm.
  destruct (Hk (t ++ [EvPrint msg])) as (l & ->).
  exists ([EvPrint msg] ++ l). rewrite app_assoc. reflexivity.
Qed.

(** An error line followed by an exit; when the console refuses the line,
    nothing is printed and the program does not exit but raises. *)
Lemma disciplined_die {A : Type} (msg : string) (k : M A) :
  is_error_line (EvPrint msg) = true -> dying env k ->
  disciplined env (bind (console_print msg) (fun _ => k)).
Proof.
  intros He Hk t r t'. unfold bind, console_print.
  destruct (Markup.accepts env msg).
  - destruct (Hk (t ++ [EvPrint msg])) as (l & ->). intros [= <- <-].
    exists ([EvPrint msg] ++ l). rewrite app_assoc. split; [reflexivity|].
    split; [reflexivity|]. rewrite existsb_app. cbn [existsb orb]. rewrite He.
    reflexivity.
  - intros [= <- <-]. exists []. rewrite app_nil_r. split; reflexivity.
Qed.

End Disciplined.

Ltac dying_all :=
  repeat (apply dying_print; [apply accepts_strictly_nested; reflexivity|]);
  apply dying_sys_exit.

Ltac disciplined_all :=
  repeat match goal with
         | |- disciplined _ (ret _) => apply disciplined_ret
         | |- disciplined _ ask => apply disciplined_ask
         | |- disciplined _ (emit _) => apply disciplined_emit; reflexivity
         | |- disciplined _ (console_print _) =>
             apply disciplined_console_print; reflexivity
         | |- disciplined _ (run_command _ _ _) => apply disciplined_run_command
         | |- disciplined _ (os_makedirs _) => apply disciplined_os_makedirs
         | |- disciplined _ (check_command_exists _) =>
             apply disciplined_check_command_exists
         | |- disciplined _ (with_temporary_directory _) =>
             apply disciplined_with_temporary_directory; intros ?
         | |- disciplined _ (bind (console_print _) _) =>
             first [ apply disciplined_die;
                     [first [reflexivity | apply prefix_app] | dying_all]
                   | apply disciplined_bind; [| intros ?] ]
         | |- disciplined _ (bind _ _) => apply disciplined_bind; [| intros ?]
         | |- disciplined _ (match ?x with _ => _ end) => destruct x
         end.

Lemma main_disciplined (env : Env) (skip_deps skip_build test : bool) :
  disciplined env (main skip_deps skip_build test).
Proof.
  unfold main, stages, install_stage, build_stage, test_stage,
    install_dependencies, build_notcurses, os_cpu_count_or, platform_system_lower,
    detect_platform.
  disciplined_all.
Qed.

(** X10: [main] leaves the program with exit code 1 and no other; it does
    so exactly in the runs in which it has printed an error line; and the
    exit status of the process is 0 exactly when [main] returns. *)
Theorem main_exit_codes (env : Env) (skip_deps skip_build test : bool)
    (t l : Trace) (r : Result unit) :
  main skip_deps skip_build test env t = (r, t ++ l) ->
  (forall code, r = Exited code -> code = 1%Z) /\
  (existsb is_error_line l = true <-> exists code, r = Exited code) /\
  (exit_status r = 0%Z \/ exit_status r = 1%Z) /\
  (exit_status r = 0%Z <-> r = Ok tt).
Proof.
  intros H.
  destruct (main_disciplined env skip_deps skip_build test _ _ _ H)
    as (l' & ->%app_inv_head & Hl).
  destruct r as [[]|code|exn]; cbn [exit_status].
  - repeat split; try discriminate; try tauto; try congruence.
    intros [code [=]].
  - destruct Hl as [-> Hl]. repeat split; try discriminate; try tauto; try congruence.
    eexists; reflexivity.
  - repeat split; try discriminate; try tauto; try congruence.
    intros [code [=]].
Qed.

Lemma main_exit_codes_witness :
  existsb is_error_line (snd (main false false false Samples.arch_host [])) = true.
Proof.
  destruct (main_exit_codes
              Samples.arch_host false false false []
              (snd (main false false false Samples.arch_host []))
              (fst (main false false false Samples.arch_host [])))
    as (_ & H & _); [reflexivity|].
  apply H. exists 1%Z. reflexivity.
Defined.

(** The courses of [main]: it stops on an unknown platform, or the version
    query raises, or notcurses is found and [--test] is not
    given, or it goes on with the stages; before that it has only printed,
    probed and run the version query. *)
Lemma main_courses (env : Env) (skip_deps skip_build test : bool)
    (t t' : Trace) (r : Result unit) :
  main skip_deps skip_build test env t = (r, t') ->
  exists platform_name package_manager pre,
    (forall t0, exists probes,
        detect_platform env t0 = (Ok (platform_name, package_manager), t0 ++ probes)) /\
    forallb is_prelude pre = true /\
    ((platform_name = "unknown" /\ r = Exited 1 /\ t' = t ++ pre) \/
     (platform_name <> "unknown" /\ (exists exn, r = Raised exn) /\ t' = t ++ pre) \/
     (platform_name <> "unknown" /\ test = false /\ r = Ok tt /\
      exists pre0,
        pre = pre0 ++ [EvPrint "[green]SUCCESS: notcurses 3.0.11 already installed[/green]"] /\
        t' = t ++ pre) \/
     (platform_name <> "unknown" /\
      stages skip_deps skip_build test platform_name package_manager env (t ++ pre)
      = (r, t'))).
Proof.
  destruct (detect_platform_stable env) as ([p pm] & probes & Hp & Hs).
  assert (Hprobes : forallb is_prelude probes = true).
  { apply forallb_forall. intros e He. rewrite List.Forall_forall in Hp.
    destruct (Hp e He) as (cmd & found & ->). reflexivity. }
  intros H. exists p, pm.
  destruct (String.eqb_spec p "unknown") as [->|Hne].
  - pose proof (Hs (t ++ [banner])) as Hd.
    rewrite (main_on_unknown_platform _ _ _ _ _ _ _ Hd) in H.
    injection H as <- <-. eexists. split; [intros t0; eexists; apply Hs|].
    split; [|left; repeat split; reflexivity]. reflexivity.
  - rewrite (main_after_detection _ _ _ _ _ _ _ _ (Hs (t ++ [banner])) Hne) in H.
    cbv zeta in H.
    destruct (env_run env _ version_query None) as [rc out err| |].
    + destruct ((rc =? 0)%Z && Text.contains pinned_version out);
        [destruct test|].
      * eexists. split; [intros t0; eexists; apply Hs|].
        split; [| right; right; right; split; [exact Hne|];
                  rewrite <- H; f_equal; rewrite <- !app_assoc; reflexivity].
        rewrite !forallb_app, Hprobes. reflexivity.
      * injection H as <- <-. eexists. split; [intros t0; eexists; apply Hs|].
        split; [| right; right; left; repeat split; try assumption;
                  eexists; split; [| rewrite <- !app_assoc; reflexivity];
                  rewrite !app_assoc; reflexivity].
        rewrite !forallb_app, Hprobes. reflexivity.
      * eexists. split; [intros t0; eexists; apply Hs|].
        split; [| right; right; right; split; [exact Hne|];
                  rewrite <- H; f_equal; rewrite <- !app_assoc; reflexivity].
        rewrite !forallb_app, Hprobes. reflexivity.
    + injection H as <- <-. eexists. split; [intros t0; eexists; apply Hs|].
      split; [| right; left; split; [exact Hne|]; split; [eexists; reflexivity|];
                rewrite <- !app_assoc; reflexivity].
      rewrite !forallb_app, Hprobes. reflexivity.
    + injection H as <- <-. eexists. split; [intros t0; eexists; apply Hs|].
      split; [| right; left; split; [exact Hne|]; split; [eexists; reflexivity|];
                rewrite <- !app_assoc; reflexivity].
      rewrite !forallb_app, Hprobes. reflexivity.
Qed.

Lemma prelude_has_no (e : Event) (pre : Trace) :
  is_prelude e = false -> forallb is_prelude pre = true -> ~ In e pre.
Proof.
  intros He Hpre Hin. rewrite forallb_forall in Hpre.
  rewrite (Hpre _ Hin) in He. discriminate.
Qed.



Lemma install_stage_ok_inv (env : Env) (platform_name package_manager : string)
    (t t' : Trace) :
  install_stage false platform_name package_manager env t = (Ok tt, t') ->
  exists packages cmd out err,
    t' = t ++ [EvProgressAdd "Installing dependencies...";
               EvCall "install_dependencies";
               EvPrint ("[blue]Installing dependencies: " +:+ packages +:+ "[/blue]");
               EvRun cmd None true (Completed 0 out err);
               EvProgressRemove;
               EvPrint "[green]SUCCESS: Dependencies installed successfully[/green]"].
Proof.
  unfold install_stage. cbn [negb].
  unfold bind at 1. unfold emit at 1. unfold bind at 1.
  destruct (deps !! platform_name) as [pkgs|] eqn:Hp;
    [destruct (commands platform_name !! package_manager) as [template|] eqn:Hc|].
  - rewrite (install_dependencies_runs _ _ _ _ _ _ Hp Hc). cbv zeta.
    unfold bind, emit, console_print, sys_exit.
    destruct (env_run env _ _ None) as [rc out err| |];
      [|discriminate|discriminate].
    destruct (rc =? 0)%Z eqn:Hz;
      [|destruct (Markup.accepts env _); discriminate].
    apply Z.eqb_eq in Hz as ->. accept_constants env. intros [= <-].
    do 4 eexists. rewrite <- !app_assoc. reflexivity.
  - rewrite install_dependencies_no_manager by (try eexists; eassumption).
    unfold bind, emit, console_print, sys_exit.
    destruct (Markup.accepts env _); discriminate.
  - rewrite install_dependencies_no_platform by assumption.
    unfold bind, emit, console_print, sys_exit.
    destruct (Markup.accepts env _); discriminate.
Qed.

Lemma install_stage_runs_nowhere (env : Env) (skip_deps : bool)
    (platform_name package_manager : string) :
  emits env runs_nowhere (install_stage skip_deps platform_name package_manager).
Proof.
  unfold install_stage, install_dependencies.
  emits_with ltac:(unfold runs_nowhere; intros; discriminate).
Qed.

Lemma test_stage_runs_nowhere (env : Env) (test : bool) :
  emits env runs_nowhere (test_stage test).
Proof.
  unfold test_stage. emits_with ltac:(unfold runs_nowhere; intros; discriminate).
Qed.

Lemma tail_grows (env : Env) (skip_build test : bool) (platform_name : string) :
  emits env (fun _ => True)
        (build_stage skip_build platform_name;; test_stage test;; emit closing_panel).
Proof.
  unfold build_stage, test_stage.
  emits_all ltac:(exact I).
  apply build_notcurses_emits; intros; exact I.
Qed.

(** Before the closing panel, the stages print no closing panel. *)
Lemma stages_end (env : Env) (skip_deps skip_build test : bool)
    (platform_name package_manager : string) (t t' : Trace) (r : Result unit) :
  stages skip_deps skip_build test platform_name package_manager env t = (r, t') ->
  exists l0,
    Forall (fun e => e <> closing_panel) l0 /\
    ((r = Ok tt /\ t' = t ++ l0 ++ [closing_panel]) \/
     (r <> Ok tt /\ t' = t ++ l0)).
Proof.
  assert (HA : emits env (fun e => e <> closing_panel)
                 (install_stage skip_deps platform_name package_manager)).
  { unfold install_stage, install_dependencies. emits_with ltac:(discriminate). }
  assert (HB : emits env (fun e => e <> closing_panel)
                 (build_stage skip_build platform_name)).
  { unfold build_stage. emits_with ltac:(discriminate).
    apply build_notcurses_emits; intros; discriminate. }
  assert (HC : emits env (fun e => e <> closing_panel) (test_stage test)).
  { unfold test_stage. emits_with ltac:(discriminate). }
  unfold stages. intros H.
  apply bind_inv in H as (rA & tA & EA & H).
  destruct (HA _ _ _ EA) as (lA & -> & FA).
  destruct rA as [[]|code|exn];
    [| destruct H as [-> ->]; exists lA; split; [exact FA|]; right;
       split; [discriminate | reflexivity]..].
  apply bind_inv in H as (rB & tB & EB & H).
  destruct (HB _ _ _ EB) as (lB & -> & FB).
  destruct rB as [[]|code|exn];
    [| destruct H as [-> ->]; exists (lA ++ lB);
       (split; [apply Forall_app; split; assumption|]); right;
       (split; [discriminate | rewrite app_assoc; reflexivity])..].
  apply bind_inv in H as (rC & tC & EC & H).
  destruct (HC _ _ _ EC) as (lC & -> & FC).
  assert (F : Forall (fun e => e <> closing_panel) (lA ++ lB ++ lC))
    by (repeat (apply Forall_app; split); assumption).
  exists (lA ++ lB ++ lC). split; [exact F|].
  destruct rC as [[]|code|exn].
  - injection H as <- <-. left. split; [reflexivity|].
    rewrite <- !app_assoc. reflexivity.
  - destruct H as [-> ->]. right. split; [discriminate|].
    rewrite <- !app_assoc. reflexivity.
  - destruct H as [-> ->]. right. split; [discriminate|].
    rewrite <- !app_assoc. reflexivity.
Qed.

(** X11: the closing panel "Installation Complete!" is printed only as the
    last thing of a run in which [main] returns; and when [main] returns,
    the run ends with the closing panel or, without [--test], with the line
    saying that notcurses 3.0.11 is already installed. *)
Theorem closing_panel_means_success (env : Env) (skip_deps skip_build test : bool)
    (t l : Trace) (r : Result unit) :
  main skip_deps skip_build test env t = (r, t ++ l) ->
  (In closing_panel l -> r = Ok tt /\ last l = Some closing_panel) /\
  (r = Ok tt ->
     last l = Some closing_panel \/
     (test = false /\
      last l = Some (EvPrint "[green]SUCCESS: notcurses 3.0.11 already installed[/green]"))).
Proof.
  intros H.
  destruct (main_courses _ _ _ _ _ _ _ H)
    as (p & pm & pre & _ & Hpre &
        [(_ & -> & ->%app_inv_head) |
         [(_ & (exn & ->) & ->%app_inv_head) |
          [(_ & -> & -> & pre0 & -> & ->%app_inv_head) | (_ & Hst)]]]).
  - split; [|discriminate].
    intros Hin. exfalso. revert Hin. apply prelude_has_no; [reflexivity | exact Hpre].
  - split; [|discriminate].
    intros Hin. exfalso. revert Hin. apply prelude_has_no; [reflexivity | exact Hpre].
  - split.
    + intros Hin. exfalso. revert Hin.
      apply prelude_has_no; [reflexivity | exact Hpre].
    + intros _. right. split; [reflexivity | apply last_snoc].
  - destruct (stages_end _ _ _ _ _ _ _ _ _ Hst) as (l0 & F0 & [[-> E] | [Hr E]]);
      rewrite <- app_assoc in E; apply app_inv_head in E as ->.
    + split; [intros _; split; [reflexivity|] | intros _; left];
        rewrite !app_assoc; apply last_snoc.
    + split; [|intros ->; contradiction].
      intros Hin. exfalso. apply in_app_or in Hin as [Hin|Hin].
      * revert Hin. apply prelude_has_no; [reflexivity | exact Hpre].
      * rewrite List.Forall_forall in F0. apply (F0 _ Hin). reflexivity.
Qed.

Lemma closing_panel_means_success_witness :
  last (snd (main true true true Samples.ubuntu_old_version [])) = Some closing_panel.
Proof.
  destruct (closing_panel_means_success
              Samples.ubuntu_old_version true true true []
              (snd (main true true true Samples.ubuntu_old_version []))
              (fst (main true true true Samples.ubuntu_old_version [])))
    as [H _]; [reflexivity|].
  apply H. vm_compute. do 7 right. left. reflexivity.
Defined.

Lemma install_stage_outside_build (env : Env) (skip_deps : bool)
    (platform_name package_manager : string) :
  emits env outside_build (install_stage skip_deps platform_name package_manager).
Proof.
  unfold install_stage, install_dependencies.
  emits_with ltac:(split; [unfold not_build_call | unfold runs_nowhere; intros];
                   discriminate).
Qed.


Lemma outside_build_no_call (l : Trace) :
  Forall outside_build l -> ~ In (EvCall "build_notcurses") l.
Proof.
  intros F Hin. rewrite List.Forall_forall in F.
  destruct (F _ Hin) as [H _]. apply H. reflexivity.
Qed.




(** X14: when the dependency stage is not skipped, the source build is
    entered only after [install_dependencies] has run its command and that
    command has ended with status 0: the trace shows the successful command
    and the line reporting it before the entry into [build_notcurses]. *)
Theorem build_follows_installed_dependencies (env : Env) (skip_build test : bool)
    (t l : Trace) (r : Result unit) :
  main false skip_build test env t = (r, t ++ l) ->
  In (EvCall "build_notcurses") l ->
  exists l1 l2 packages cmd out err,
    l = l1 ++ [EvCall "install_dependencies";
               EvPrint ("[blue]Installing dependencies: " +:+ packages +:+ "[/blue]");
               EvRun cmd None true (Completed 0 out err);
               EvProgressRemove;
               EvPrint "[green]SUCCESS: Dependencies installed successfully[/green]"]
           ++ l2 /\
    ~ In (EvCall "build_notcurses") l1 /\
    In (EvCall "build_notcurses") l2.
Proof.
  intros H Hin.
  destruct (main_courses _ _ _ _ _ _ _ H)
    as (p & pm & pre & _ & Hpre &
        [(_ & -> & ->%app_inv_head) |
         [(_ & (exn & ->) & ->%app_inv_head) |
          [(_ & -> & -> & pre0 & _ & ->%app_inv_head) | (_ & Hst)]]]);
    try (exfalso; revert Hin; apply prelude_has_no; [reflexivity | exact Hpre]).
  assert (Hno : ~ In (EvCall "build_notcurses") pre)
    by (apply prelude_has_no; [reflexivity | exact Hpre]).
  unfold stages in Hst.
  apply bind_inv in Hst as (rA & tA & EA & Hst).
  destruct (install_stage_outside_build _ _ _ _ _ _ _ EA) as (lA & -> & FA).
  destruct rA as [[]|code|exn];
    [| destruct Hst as [_ E]; rewrite <- app_assoc in E;
       apply app_inv_head in E as ->; exfalso;
       apply in_app_or in Hin as [Hin|Hin];
       [exact (Hno Hin) | exact (outside_build_no_call _ FA Hin)]..].
  apply install_stage_ok_inv in EA as (packages & cmd & out & err & EA).
  destruct (tail_grows _ _ _ _ _ _ _ Hst) as (l2 & E & _).
  rewrite EA, <- !app_assoc in E. apply app_inv_head in E as ->.
  exists (pre ++ [EvProgressAdd "Installing dependencies..."]), l2,
         packages, cmd, out, err.
  split; [rewrite <- !app_assoc; reflexivity|].
  assert (Hno1 : ~ In (EvCall "build_notcurses")
                   (pre ++ [EvProgressAdd "Installing dependencies..."])).
  { intros Hin'. apply in_app_or in Hin' as [Hin'|Hin']; [exact (Hno Hin')|].
    pick_event Hin'. }
  split; [exact Hno1|].
  apply in_app_or in Hin as [Hin|Hin]; [contradiction|].
  cbn [app In] in Hin.
  repeat (destruct Hin as [Hin|Hin]; [discriminate Hin|]). exact Hin.
Qed.

Lemma build_follows_installed_dependencies_witness :
  exists l1 l2 packages cmd out err,
    snd (main false false false Samples.ubuntu_ldconfig_fails [])
    = l1 ++ [EvCall "install_dependencies";
             EvPrint ("[blue]Installing dependencies: " +:+ packages +:+ "[/blue]");
             EvRun cmd None true (Completed 0 out err);
             EvProgressRemove;
             EvPrint "[green]SUCCESS: Dependencies installed successfully[/green]"]
         ++ l2 /\
    ~ In (EvCall "build_notcurses") l1 /\
    In (EvCall "build_notcurses") l2.
Proof.
  apply (build_follows_installed_dependencies
           Samples.ubuntu_ldconfig_fails false false []
           (snd (main false false false Samples.ubuntu_ldconfig_fails []))
           (fst (main false false false Samples.ubuntu_ldconfig_fails []))).
  - reflexivity.
  - vm_compute. do 11 right. left. reflexivity.
Defined.




Lemma is_prelude_run (cmd : string) (cwd : option string) (check : bool) (p : Proc) :
  is_prelude (EvRun cmd cwd check p) = true ->
  cmd = version_query /\ cwd = None /\ check = false.
Proof.
  destruct cwd, check; cbn; try discriminate.
  intros H%String.eqb_eq. repeat split. exact H.
Qed.

(** The error line about a detected platform without packages is markup
    the console accepts. *)
Lemma unsupported_line_accepted (env : Env) (t t1 : Trace)
    (platform_name package_manager : string) :
  detect_platform env t = (Ok (platform_name, package_manager), t1) ->
  Markup.accepts env ("[red]ERROR: " +:+ ("Unsupported platform: " +:+ platform_name)
                      +:+ "[/red]") = true.
Proof.
  unfold detect_platform, bind, ask, check_command_exists, ret.
  repeat match goal with
         | |- context [String.eqb ?a ?b] => destruct (String.eqb a b)
         | |- context [env_which env ?c] => destruct (env_which env c)
         end;
    intros [= <- <- _]; apply accepts_strictly_nested; reflexivity.
Qed.

(** X13: on a platform that has no entry in the dependency table (the
    detector's "linux" and "windows"), a run that does not skip the
    dependency stage gets no further than that stage: unless notcurses
    3.0.11 is found and [--test] is not given, [main] ends with the line
    "ERROR: Unsupported platform: ..." and exit code 1 (or with an exception
    of the version query); [build_notcurses] is not entered and the only
    command run is the version query. *)
Theorem missing_platform_stops_at_dependencies (env : Env) (skip_build test : bool)
    (t t1 l : Trace) (r : Result unit) (platform_name package_manager : string) :
  detect_platform env (t ++ [banner]) = (Ok (platform_name, package_manager), t1) ->
  platform_name <> "unknown" ->
  deps !! platform_name = None ->
  main false skip_build test env t = (r, t ++ l) ->
  (r = Ok tt ->
     test = false /\
     last l = Some (EvPrint "[green]SUCCESS: notcurses 3.0.11 already installed[/green]")) /\
  (forall code, r = Exited code ->
     code = 1%Z /\
     last l = Some (EvPrint ("[red]ERROR: " +:+ ("Unsupported platform: " +:+ platform_name)
                             +:+ "[/red]"))) /\
  ~ In (EvCall "build_notcurses") l /\
  (forall cmd cwd check p, In (EvRun cmd cwd check p) l -> cmd = version_query).
Proof.
  intros Hd Hne Hdeps H.
  destruct (main_courses _ _ _ _ _ _ _ H)
    as (p & pm & pre & Hs & Hpre & Hcases).
  destruct (Hs (t ++ [banner])) as (probes & Hd'). rewrite Hd in Hd'.
  injection Hd' as <- <- _.
  assert (Hruns : forall cmd cwd check pr, In (EvRun cmd cwd check pr) pre ->
                                           cmd = version_query).
  { intros cmd cwd check pr Hin. rewrite forallb_forall in Hpre.
    apply (is_prelude_run _ _ _ _ (Hpre _ Hin)). }
  assert (Hno : ~ In (EvCall "build_notcurses") pre)
    by (apply prelude_has_no; [reflexivity | exact Hpre]).
  destruct Hcases
    as [(Hu & _) |
        [(_ & (exn & ->) & ->%app_inv_head) |
         [(_ & -> & -> & pre0 & -> & ->%app_inv_head) | (_ & Hst)]]].
  - contradiction.
  - repeat split; try discriminate; assumption.
  - repeat split; try discriminate; try assumption. apply last_snoc.
  - unfold stages, install_stage in Hst. cbn [negb] in Hst.
    unfold bind at 1 in Hst. unfold bind at 1 in Hst. unfold emit at 1 in Hst.
    unfold bind at 1 in Hst.
    rewrite install_dependencies_no_platform in Hst by exact Hdeps.
    unfold bind, emit, console_print, sys_exit in Hst.
    rewrite (unsupported_line_accepted _ _ _ _ _ Hd) in Hst.
    rewrite <- ?app_assoc in Hst. injection Hst as <- E.
    apply app_inv_head in E as <-.
    split; [discriminate|]. split; [| split].
    + intros code [= <-]. split; [reflexivity|].
      rewrite last_app. reflexivity.
    + intros Hin. apply in_app_or in Hin as [Hin|Hin]; [contradiction|].
      pick_event Hin.
    + intros cmd cwd check pr Hin. apply in_app_or in Hin as [Hin|Hin];
        [exact (Hruns _ _ _ _ Hin)|]. pick_event Hin.
Qed.

Lemma missing_platform_stops_at_dependencies_witness :
  fst (main false false true Samples.windows_host []) = Exited 1 /\
  last (snd (main false false true Samples.windows_host []))
  = Some (EvPrint "[red]ERROR: Unsupported platform: windows[/red]").
Proof.
  destruct (missing_platform_stops_at_dependencies
              Samples.windows_host false true
              [] [banner; EvWhich "pacman" true]
              (snd (main false false true Samples.windows_host []))
              (fst (main false false true Samples.windows_host []))
              "windows" "msys2")
    as (_ & H & _); [reflexivity | discriminate | reflexivity | reflexivity |].
  split; [reflexivity|]. apply (H 1%Z). reflexivity.
Defined.





(** X17: with [--skip-deps], [install_dependencies] is never entered and no
    checked command is run but those of the source build. *)
Theorem skip_deps_skips_installer (env : Env) (skip_build test : bool)
    (t l : Trace) (r : Result unit) :
  main true skip_build test env t = (r, t ++ l) ->
  ~ In (EvCall "install_dependencies") l /\
  ~ In (EvProgressAdd "Installing dependencies...") l /\
  (forall cmd cwd p, In (EvRun cmd cwd true p) l -> is_build_command cmd = true).
Proof.
  intros H.
  set (P := fun e : Event =>
              e <> EvCall "install_dependencies" /\
              e <> EvProgressAdd "Installing dependencies..." /\
              no_install_command e).
  assert (E : emits env P (main true skip_build test)).
  { unfold main, stages, install_stage, build_stage, test_stage. cbn [negb].
    emits_all ltac:(unfold P, no_install_command;
                    repeat split; intros; discriminate).
    - apply detect_platform_emits. intros.
      unfold P, no_install_command; repeat split; intros; discriminate.
    - apply build_notcurses_emits;
        try (unfold P, no_install_command; repeat split; intros; discriminate).
      intros cmd cwd p Hc. unfold P, no_install_command.
      repeat split; try discriminate. intros cmd' cwd' p' [= <- <- <-]. exact Hc.
    - apply build_notcurses_emits;
        try (unfold P, no_install_command; repeat split; intros; discriminate).
      intros cmd cwd p Hc. unfold P, no_install_command.
      repeat split; try discriminate. intros cmd' cwd' p' [= <- <- <-]. exact Hc. }
  destruct (E _ _ _ H) as (l' & ->%app_inv_head & Hl).
  rewrite List.Forall_forall in Hl. repeat split.
  - intros Hin. destruct (Hl _ Hin) as [Hn _]. apply Hn. reflexivity.
  - intros Hin. destruct (Hl _ Hin) as (_ & Hn & _). apply Hn. reflexivity.
  - intros cmd cwd p Hin. destruct (Hl _ Hin) as (_ & _ & Hn).
    apply (Hn _ _ _ eq_refl).
Qed.

Lemma skip_deps_skips_installer_witness :
  ~ In (EvCall "install_dependencies")
       (snd (main true false false Samples.ubuntu_offline [])).
Proof.
  apply (skip_deps_skips_installer
           Samples.ubuntu_offline false false []
           (snd (main true false false Samples.ubuntu_offline []))
           (fst (main true false false Samples.ubuntu_offline []))).
  reflexivity.
Defined.

